(** * MDEditor: a shallow embedding of [src/MDEditor.tsx]

    The component is a React class.  Its methods are embedded as actions of a
    small state-and-exception monad over the component instance ([this]), the
    part of the page it touches (the two scrollable elements and
    [document.body.style.overflow]) and a log of the calls it makes to its
    collaborators ([renderHTML], the [onChange] prop, [executeCommand]).

    JavaScript numbers are kept behind the interface [JsNumber]; it is
    instantiated with IEEE binary64 (what a JS engine computes) and with the
    real numbers under a relative rounding error (the standard model of
    floating point arithmetic). *)

From Stdlib Require Import String List Bool Arith ZArith Lia.
From Stdlib Require Import Floats.
From Stdlib Require Import Reals Lra.
Import ListNotations.

Local Open Scope string_scope.
Local Open Scope list_scope.
Local Open Scope nat_scope.

(** ** JavaScript values *)

(** The arithmetic [handleScroll] and [render] use on numbers. *)
Class JsNumber : Type := {
  num : Type;
  nlit : Z -> num;               (* an integer literal such as [29] *)
  nsub : num -> num -> num;      (* [a - b] *)
  nmul : num -> num -> num;      (* [a * b] *)
  ndiv : num -> num -> num       (* [a / b] *)
}.

(** [x || ''] on an optional string: every falsy value gives [''] *)
Definition or_empty (x : option string) : string :=
  match x with
  | Some s => if String.eqb s "" then "" else s
  | None => ""
  end.

(** truthiness of an optional boolean and of an optional string *)
Definition truthy (b : option bool) : bool :=
  match b with Some true => true | _ => false end.

Definition truthy_str (s : option string) : bool :=
  match s with Some s => negb (String.eqb s "") | None => false end.

(** a template literal's rendering of an optional string *)
Definition tmpl (s : option string) : string :=
  match s with Some s => s | None => "undefined" end.

(** [a === b] on optional strings and optional booleans *)
Definition str_seq (a b : option string) : bool :=
  match a, b with
  | Some x, Some y => String.eqb x y
  | None, None => true
  | _, _ => false
  end.

Definition bool_seq (a b : option bool) : bool :=
  match a, b with
  | Some x, Some y => Bool.eqb x y
  | None, None => true
  | _, _ => false
  end.

(** [s.includes(pat)]; an unanchored regular expression made of literal
    alternatives tests exactly this for each alternative *)
Fixpoint includes (pat s : string) : bool :=
  if String.prefix pat s then true
  else match s with
       | EmptyString => false
       | String _ s' => includes pat s'
       end.

(** [/(edit|live)/.test(s)] *)
Definition edit_or_live (s : string) : bool :=
  includes "edit" s || includes "live" s.

(** ** The data model *)

(** [React.CSSProperties['height']]: a number or a string *)
Inductive CSSHeight `{JsNumber} : Type :=
| HNum (n : num)
| HStr (s : string).
Arguments HNum {_} n.
Arguments HStr {_} s.

(** [React.CSSProperties]: the names of the properties with their values *)
Definition CSSProperties `{JsNumber} : Type := list (string * CSSHeight).

(** A key of an object that is spread into an element: absent ([None]), or
    present with its value, which may be [undefined]. *)
Definition Key (A : Type) : Type := option (option A).

(** A function passed as the [onChange] prop, known by its identity. *)
Definition callback := nat.

Module ICommand.
(** Modelled from the spec: the type [ICommand] of [./commands], which is
    not part of the sources.  "Command descriptor: identifies a named
    editing operation, optionally carrying a fixed value (e.g., target
    preview mode)".  Its handler is not needed here. *)
Record t : Type := mk {
  keyCommand : string;
  value : option string
}.
End ICommand.

Module ITextAreaProps.
(** Modelled from the spec: the type [ITextAreaProps] of
    [./components/TextArea], which is not part of the sources; "text-input
    pass-through options".  Of its keys, those that [render] sets itself
    before it spreads [textareaProps] into the text area (lines 181-186). *)
Record t `{JsNumber} : Type := mk {
  tabSize : Key num;
  className : Key string;
  prefixCls : Key string;
  value : Key string;
  autoFocus : Key bool
}.
Arguments mk {_}.
End ITextAreaProps.

Module Props.
(** [MDEditorProps].  [style] is, of the remaining HTML attributes ([other]
    in [render]), the one that meets an attribute [render] sets on the root.
    [previewOptions] is left out: it is spread into the preview before the
    attributes [render] sets there, so it replaces none of them. *)
Record t `{JsNumber} : Type := mk {
  value : option string;
  onChange : option callback;
  height : option CSSHeight;
  visiableDragbar : option bool;
  preview : option string;
  fullscreen : option bool;
  maxHeight : option num;
  minHeight : option num;
  tabSize : option num;
  commands : option (list ICommand.t);
  hideToolbar : option bool;
  name : option string;
  prefixCls : option string;
  className : option string;
  autoFocus : option bool;
  textareaProps : option ITextAreaProps.t;
  style : Key CSSProperties
}.
Arguments mk {_}.
End Props.

Module State.
(** [MDEditorState] *)
Record t `{JsNumber} : Type := mk {
  height : option CSSHeight;
  preview : option string;
  fullscreen : option bool;
  value : option string
}.
Arguments mk {_}.
End State.

(** DOM elements are known by their identity; [e.target === textarea] compares
    identities. *)
Definition node := nat.

Record HTMLElement `{JsNumber} : Type := mkElement {
  scrollHeight : num;
  offsetHeight : num;
  scrollTop : num
}.
Arguments mkElement {_}.

(** [React.RefObject<A>]: [current] is an [A] or [null] *)
Definition RefObject (A : Type) : Type := option A.

(** The [TextArea] child: [warp] is its scrollable wrapper, [text] the native
    textarea.  Only [warp] is tested for presence by the component. *)
Record TextArea : Type := mkTextArea {
  warp : option (RefObject node);
  text : RefObject node
}.

(** The [MarkdownPreview] child: [mdp] is its scrollable element. *)
Record MarkdownPreview : Type := mkMarkdownPreview {
  mdp : option (RefObject node)
}.

(** [new TextAreaCommandOrchestrator(textArea)] *)
Record CommandOrchestrator : Type := TextAreaCommandOrchestrator {
  textArea : option node
}.

(** Calls that leave the component, and writes to [scrollTop], in the order
    they happen. *)
Inductive Effect `{JsNumber} : Type :=
| RenderHTML (p : MarkdownPreview) (md : option string)
| OnChange (cb : callback) (arg : option string)
| ExecuteCommand (o : CommandOrchestrator) (c : ICommand.t)
| ScrollTopWrite (n : node) (v : num).
Arguments RenderHTML {_}.
Arguments OnChange {_}.
Arguments ExecuteCommand {_}.
Arguments ScrollTopWrite {_}.

(** [this], together with the part of the page the component reads and writes *)
Record World `{JsNumber} : Type := mkWorld {
  props : Props.t;
  state : State.t;
  preview : RefObject MarkdownPreview;        (* this.preview.current *)
  textarea : RefObject TextArea;              (* this.textarea.current *)
  commandOrchestrator : option CommandOrchestrator;
  leftScroll : bool;
  dom : node -> HTMLElement;
  bodyOverflow : string;                      (* document.body.style.overflow *)
  log : list Effect
}.
Arguments mkWorld {_}.

(** The argument of a [setState] call: the fields of the partial state, and
    the callback to run once the state is committed.  The only callback the
    component ever passes is [() => this.handleChange(v)]. *)
Inductive Patch `{JsNumber} : Type :=
| SetHeight (h : option CSSHeight)
| SetPreview (p : option string)
| SetFullscreen (f : option bool)
| SetValue (v : option string).
Arguments SetHeight {_}.
Arguments SetPreview {_}.
Arguments SetFullscreen {_}.
Arguments SetValue {_}.

Inductive Callback : Type :=
| CbHandleChange (v : option string).

Definition Update `{JsNumber} : Type := (Patch * option Callback)%type.

(** *** What [render] returns

    The element tree, without the event handlers (they are the methods
    below) and without the attributes that are only passed through.  A
    spread that comes after an attribute replaces it: [other] on the root
    (line 165) and [textareaProps] on the text area (line 186). *)

(** the value of a [height] style: a CSS height, or the JS expression
    [h - 29] on a height that is not a number, left unevaluated *)
Inductive StyleValue `{JsNumber} : Type :=
| Css (h : option CSSHeight)
| Minus29 (h : option CSSHeight).
Arguments Css {_}.
Arguments Minus29 {_}.

Module View.
Record Toolbar : Type := mkToolbar {
  active_fullscreen : option bool;
  active_preview : option string;
  toolbar_prefixCls : option string;
  commands : option (list ICommand.t)
}.

Record TextArea `{JsNumber} : Type := mkTextArea {
  tabSize : option num;
  textarea_className : option string;
  textarea_prefixCls : option string;
  value : option string;
  autoFocus : option bool;
  name : option string
}.
Arguments mkTextArea {_}.

Record MarkdownPreview : Type := mkMarkdownPreview {
  preview_className : string
}.

Record DragBar `{JsNumber} : Type := mkDragBar {
  dragbar_prefixCls : option string;
  height : option CSSHeight;
  maxHeight : option num;
  minHeight : option num
}.
Arguments mkDragBar {_}.

(** a child of the content [div]; a JSX child [cond && <C/>] whose
    condition is falsy renders nothing *)
Inductive child `{JsNumber} : Type :=
| TextAreaEl (a : TextArea)
| MarkdownPreviewEl (a : MarkdownPreview)
| DragBarEl (a : DragBar).
Arguments TextAreaEl {_}.
Arguments MarkdownPreviewEl {_}.
Arguments DragBarEl {_}.

(** the [style] of the root: the height [render] computes, or the [style]
    of the props when they have one, since [other] is spread after it *)
Inductive RootStyle `{JsNumber} : Type :=
| OwnHeight (h : StyleValue)
| PropStyle (s : option CSSProperties).
Arguments OwnHeight {_}.
Arguments PropStyle {_}.

Record t `{JsNumber} : Type := mk {
  className : string;
  style : RootStyle;
  toolbar : option Toolbar;
  content_className : string;
  content_height : StyleValue;
  content : list child
}.
Arguments mk {_}.
End View.

(** ** The monad of the component's methods *)

Inductive Result (A : Type) : Type :=
| Ok (a : A)
| TypeError.
Arguments Ok {A} a.
Arguments TypeError {A}.

Section Component.
Context {N : JsNumber}.

(** [getCommands()] of [./commands], which is not part of the sources *)
Variable getCommands : list ICommand.t.

(** A method runs on the world and on React's queue of pending [setState]
    calls; a thrown exception keeps what was done before it. *)
Definition M (A : Type) : Type :=
  World * list Update -> Result A * (World * list Update).

Definition ret {A} (a : A) : M A := fun s => (Ok a, s).

Definition bind {A B} (m : M A) (k : A -> M B) : M B :=
  fun s => match m s with
           | (Ok a, s') => k a s'
           | (TypeError, s') => (TypeError, s')
           end.

Definition throw {A} : M A := fun s => (TypeError, s).

Notation "x <- m ;; k" := (bind m (fun x => k))
  (at level 61, m at next level, right associativity).
Notation "m ;;; k" := (bind m (fun _ => k))
  (at level 61, right associativity).

Definition get : M World := fun s => (Ok (fst s), s).

Definition modify (f : World -> World) : M unit :=
  fun s => (Ok tt, (f (fst s), snd s)).

Definition when (b : bool) (m : M unit) : M unit :=
  if b then m else ret tt.

(** [x!.f]: dereferencing [null] throws *)
Definition nonNull {A} (x : option A) : M A :=
  match x with Some a => ret a | None => throw end.

(** *** Field updates *)

Definition with_state (st : State.t) (w : World) : World :=
  mkWorld (props w) st (preview w) (textarea w) (commandOrchestrator w)
          (leftScroll w) (dom w) (bodyOverflow w) (log w).

Definition with_props (p : Props.t) (w : World) : World :=
  mkWorld p (state w) (preview w) (textarea w) (commandOrchestrator w)
          (leftScroll w) (dom w) (bodyOverflow w) (log w).

Definition with_orchestrator (o : CommandOrchestrator) (w : World) : World :=
  mkWorld (props w) (state w) (preview w) (textarea w) (Some o)
          (leftScroll w) (dom w) (bodyOverflow w) (log w).

Definition with_leftScroll (b : bool) (w : World) : World :=
  mkWorld (props w) (state w) (preview w) (textarea w) (commandOrchestrator w)
          b (dom w) (bodyOverflow w) (log w).

Definition with_bodyOverflow (o : string) (w : World) : World :=
  mkWorld (props w) (state w) (preview w) (textarea w) (commandOrchestrator w)
          (leftScroll w) (dom w) o (log w).

(** React attaches and detaches the two children: [this.textarea.current] and
    [this.preview.current] *)
Definition with_refs (t : RefObject TextArea) (p : RefObject MarkdownPreview)
    (w : World) : World :=
  mkWorld (props w) (state w) p t (commandOrchestrator w)
          (leftScroll w) (dom w) (bodyOverflow w) (log w).

Definition emit (e : Effect) (w : World) : World :=
  mkWorld (props w) (state w) (preview w) (textarea w) (commandOrchestrator w)
          (leftScroll w) (dom w) (bodyOverflow w) (log w ++ [e]).

(** [el.scrollTop = v] on the element [n] *)
Definition write_scrollTop (n : node) (v : num) (w : World) : World :=
  mkWorld (props w) (state w) (preview w) (textarea w) (commandOrchestrator w)
          (leftScroll w)
          (fun m => if Nat.eqb m n
                    then mkElement (scrollHeight (dom w m)) (offsetHeight (dom w m)) v
                    else dom w m)
          (bodyOverflow w) (log w ++ [ScrollTopWrite n v]).

(** *** React *)

(** [this.setState(patch, callback)] inside a handler or a lifecycle method:
    the update is queued, [this.state] keeps its value until the batch ends. *)
Definition setState (p : Patch) (cb : option Callback) : M unit :=
  fun s => (Ok tt, (fst s, snd s ++ [(p, cb)])).

Definition apply_patch (st : State.t) (p : Patch) : State.t :=
  match p with
  | SetHeight h => State.mk h (State.preview st) (State.fullscreen st) (State.value st)
  | SetPreview v => State.mk (State.height st) v (State.fullscreen st) (State.value st)
  | SetFullscreen f => State.mk (State.height st) (State.preview st) f (State.value st)
  | SetValue v => State.mk (State.height st) (State.preview st) (State.fullscreen st) v
  end.

Definition apply_patches (st : State.t) (q : list Update) : State.t :=
  fold_left (fun st u => apply_patch st (fst u)) q st.

Definition callbacks (q : list Update) : list Callback :=
  flat_map (fun u => match snd u with Some c => [c] | None => [] end) q.

(** *** The methods of [MDEditor] *)

Definition defaultProps : Props.t :=
  Props.mk (Some "") None (Some (HNum (nlit 200))) (Some true) (Some "live")
           (Some false) (Some (nlit 1200)) (Some (nlit 100)) (Some (nlit 2))
           (Some getCommands) None None (Some "w-md-editor") None None None None.

Definition constructor (p : Props.t) : State.t :=
  State.mk (Props.height p) (Props.preview p) (Props.fullscreen p) (Props.value p).

Definition handleChange (mdStr : option string) : M unit :=
  w <- get ;;
  let onChange := Props.onChange (props w) in
  p <- nonNull (preview w) ;;
  modify (emit (RenderHTML p mdStr)) ;;;
  match onChange with
  | Some cb => modify (emit (OnChange cb (Some (or_empty mdStr))))
  | None => ret tt
  end.

Definition componentDidMount : M unit :=
  w <- get ;;
  handleChange (State.value (state w)) ;;;
  w <- get ;;
  t <- nonNull (textarea w) ;;
  modify (with_orchestrator (TextAreaCommandOrchestrator (text t))).

Definition UNSAFE_componentWillReceiveProps (nextProps : Props.t) : M unit :=
  w <- get ;;
  when (negb (str_seq (Props.preview nextProps) (Props.preview (props w))))
       (setState (SetPreview (Props.preview nextProps)) None) ;;;
  w <- get ;;
  when (negb (bool_seq (Props.fullscreen nextProps) (Props.fullscreen (props w))))
       (setState (SetFullscreen (Props.fullscreen nextProps)) None) ;;;
  w <- get ;;
  when (negb (str_seq (Props.value nextProps) (Props.value (props w))))
       (setState (SetValue (Props.value nextProps))
                 (Some (CbHandleChange (Props.value nextProps)))).

(** What [UNSAFE_componentWillReceiveProps] queues, read off its three tests. *)
Definition props_updates (nextProps : Props.t) (w : World) : list Update :=
  (if negb (str_seq (Props.preview nextProps) (Props.preview (props w)))
   then [(SetPreview (Props.preview nextProps), None)] else [])
  ++ (if negb (bool_seq (Props.fullscreen nextProps) (Props.fullscreen (props w)))
      then [(SetFullscreen (Props.fullscreen nextProps), None)] else [])
  ++ (if negb (str_seq (Props.value nextProps) (Props.value (props w)))
      then [(SetValue (Props.value nextProps),
             Some (CbHandleChange (Props.value nextProps)))] else []).

(** a scroll event, with its [target] *)
Record UIEvent : Type := mkEvent { target : node }.

Definition handleScroll (e : UIEvent) : M unit :=
  w <- get ;;
  match textarea w, preview w with
  | Some ta, Some pv =>
    match mdp pv, warp ta with
    | Some pmdp, Some twarp =>
      match twarp, pmdp with
      | Some textarea, Some preview =>
        let scale :=
          ndiv (nsub (scrollHeight (dom w textarea)) (offsetHeight (dom w textarea)))
               (nsub (scrollHeight (dom w preview)) (offsetHeight (dom w preview))) in
        w1 <- get ;;
        when (Nat.eqb (target e) textarea && leftScroll w1)
             (modify (write_scrollTop preview
                        (ndiv (scrollTop (dom w1 textarea)) scale))) ;;;
        w2 <- get ;;
        when (Nat.eqb (target e) preview && negb (leftScroll w2))
             (modify (write_scrollTop textarea
                        (nmul (scrollTop (dom w2 preview)) scale)))
      | _, _ => ret tt
      end
    | _, _ => ret tt
    end
  | _, _ => ret tt
  end.

Definition handleCommand (command : ICommand.t) : M unit :=
  when (String.eqb (ICommand.keyCommand command) "preview")
       (setState (SetPreview (ICommand.value command)) None) ;;;
  when (String.eqb (ICommand.keyCommand command) "fullscreen")
       (w <- get ;;
        setState (SetFullscreen (Some (negb (truthy (State.fullscreen (state w)))))) None ;;;
        w <- get ;;
        modify (with_bodyOverflow
                  (if truthy (State.fullscreen (state w)) then "initial" else "hidden"))) ;;;
  w <- get ;;
  o <- nonNull (commandOrchestrator w) ;;
  modify (emit (ExecuteCommand o command)).

(** The scale [handleScroll] computes for the editor's wrapper [t] and the
    preview's element [p], and the writes it makes with it, read off its two
    tests.  The second test can only pass when the first has failed. *)
Definition scroll_scale (t p : node) (w : World) : num :=
  ndiv (nsub (scrollHeight (dom w t)) (offsetHeight (dom w t)))
       (nsub (scrollHeight (dom w p)) (offsetHeight (dom w p))).

Definition scroll_writes (e : UIEvent) (t p : node) (w : World) : list (node * num) :=
  if Nat.eqb (target e) t && leftScroll w
  then [(p, ndiv (scrollTop (dom w t)) (scroll_scale t p w))]
  else if Nat.eqb (target e) p && negb (leftScroll w)
       then [(t, nmul (scrollTop (dom w p)) (scroll_scale t p w))]
       else [].

(** What [handleCommand] does before it reaches the orchestrator, read off its
    two tests: the partial states it queues, and the page it leaves. *)
Definition command_updates (command : ICommand.t) (w : World) : list Update :=
  (if String.eqb (ICommand.keyCommand command) "preview"
   then [(SetPreview (ICommand.value command), None)] else [])
  ++ (if String.eqb (ICommand.keyCommand command) "fullscreen"
      then [(SetFullscreen (Some (negb (truthy (State.fullscreen (state w))))), None)]
      else []).

Definition command_page (command : ICommand.t) (w : World) : World :=
  if String.eqb (ICommand.keyCommand command) "fullscreen"
  then with_bodyOverflow
         (if truthy (State.fullscreen (state w)) then "initial" else "hidden") w
  else w.

(** the handlers [render] installs on the children *)
Definition onMouseOver : M unit := modify (with_leftScroll true).
Definition onMouseLeave : M unit := modify (with_leftScroll false).
Definition dragBarOnChange (newHeight : num) : M unit :=
  setState (SetHeight (Some (HNum newHeight))) None.

(** an attribute followed by the spread of an object: the key of the object
    wins when it is present *)
Definition override {A} (own : option A) (k : Key A) : option A :=
  match k with Some v => v | None => own end.

(** a key of [textareaProps]; spreading [undefined] gives no key *)
Definition textarea_key {A} (f : ITextAreaProps.t -> Key A)
    (tp : option ITextAreaProps.t) : Key A :=
  match tp with Some t => f t | None => None end.

(** [classnames(...)]: the names whose condition is truthy, joined by spaces *)
Definition classnames (cs : list (string * bool)) : string :=
  String.concat " " (map fst (filter snd cs)).

Definition render (p : Props.t) (st : State.t) : View.t :=
  let prefixCls := Props.prefixCls p in
  let cls := classnames
    [ (or_empty (Props.className p), truthy_str (Props.className p));
      (or_empty prefixCls, truthy_str prefixCls);
      ((tmpl prefixCls ++ "-show-" ++ tmpl (State.preview st))%string,
       truthy_str (State.preview st));
      ((tmpl prefixCls ++ "-fullscreen")%string, truthy (State.fullscreen st)) ] in
  let tp := Props.textareaProps p in
  View.mk
    cls
    (match Props.style p with
     | Some s => View.PropStyle s
     | None => View.OwnHeight (if truthy (State.fullscreen st)
                               then Css (Some (HStr "100%"))
                               else Css (State.height st))
     end)
    (if negb (truthy (Props.hideToolbar p))
     then Some (View.mkToolbar (State.fullscreen st) (State.preview st)
                               prefixCls (Props.commands p))
     else None)
    (tmpl prefixCls ++ "-content")%string
    (if truthy (State.fullscreen st) then Css (Some (HStr "calc(100% - 29px)"))
     else match State.height st with
          | Some (HNum n) => Css (Some (HNum (nsub n (nlit 29))))
          | h => Minus29 h
          end)
    ((if edit_or_live (tmpl (State.preview st))
      then [View.TextAreaEl
              (View.mkTextArea
                 (override (Props.tabSize p) (textarea_key ITextAreaProps.tabSize tp))
                 (override (Some (tmpl prefixCls ++ "-input")%string)
                           (textarea_key ITextAreaProps.className tp))
                 (override prefixCls (textarea_key ITextAreaProps.prefixCls tp))
                 (override (State.value st) (textarea_key ITextAreaProps.value tp))
                 (override (Props.autoFocus p) (textarea_key ITextAreaProps.autoFocus tp))
                 (Props.name p))]
      else [])
     ++ [View.MarkdownPreviewEl
           (View.mkMarkdownPreview (tmpl prefixCls ++ "-preview")%string)]
     ++ (if truthy (Props.visiableDragbar p)
            && negb (str_seq (State.preview st) (Some "preview"))
            && negb (truthy (State.fullscreen st))
         then [View.DragBarEl
                 (View.mkDragBar prefixCls (State.height st)
                                 (Props.maxHeight p) (Props.minHeight p))]
         else [])).

(** the two panes, as they come in the content *)
Inductive pane : Type := EditorPane | PreviewPane.

Definition panes (v : View.t) : list pane :=
  flat_map (fun c => match c with
                     | View.TextAreaEl _ => [EditorPane]
                     | View.MarkdownPreviewEl _ => [PreviewPane]
                     | View.DragBarEl _ => []
                     end) (View.content v).



(** *** React around the methods *)

(** [React.createElement]: a prop that is [undefined] takes its value in
    [defaultProps] *)
Definition orDefault {A} (x d : option A) : option A :=
  match x with Some _ => x | None => d end.

Definition withDefaults (p : Props.t) : Props.t :=
  Props.mk
    (orDefault (Props.value p) (Props.value defaultProps))
    (orDefault (Props.onChange p) (Props.onChange defaultProps))
    (orDefault (Props.height p) (Props.height defaultProps))
    (orDefault (Props.visiableDragbar p) (Props.visiableDragbar defaultProps))
    (orDefault (Props.preview p) (Props.preview defaultProps))
    (orDefault (Props.fullscreen p) (Props.fullscreen defaultProps))
    (orDefault (Props.maxHeight p) (Props.maxHeight defaultProps))
    (orDefault (Props.minHeight p) (Props.minHeight defaultProps))
    (orDefault (Props.tabSize p) (Props.tabSize defaultProps))
    (orDefault (Props.commands p) (Props.commands defaultProps))
    (orDefault (Props.hideToolbar p) (Props.hideToolbar defaultProps))
    (orDefault (Props.name p) (Props.name defaultProps))
    (orDefault (Props.prefixCls p) (Props.prefixCls defaultProps))
    (orDefault (Props.className p) (Props.className defaultProps))
    (orDefault (Props.autoFocus p) (Props.autoFocus defaultProps))
    (orDefault (Props.textareaProps p) (Props.textareaProps defaultProps))
    (Props.style p).

Definition runCallback (c : Callback) : M unit :=
  match c with CbHandleChange v => handleChange v end.

Fixpoint runCallbacks (cs : list Callback) : M unit :=
  match cs with
  | [] => ret tt
  | c :: cs' => runCallback c ;;; runCallbacks cs'
  end.

(** The end of a batch: the queued partial states are merged into
    [this.state] in order, then the [setState] callbacks run in order.  The
    only callback is [handleChange], which queues nothing, so one pass empties
    the queue.  React attaches and detaches the children's refs between
    batches; the properties below hold for whatever the refs are when a
    method starts. *)
Definition flush : M unit :=
  fun s => runCallbacks (callbacks (snd s))
             (with_state (apply_patches (state (fst s)) (snd s)) (fst s), []).

(** A handler or lifecycle method run by React: it starts on an empty queue,
    and the batch is flushed when it returns, also when it has thrown. *)
Definition batched (h : M unit) (w : World) : Result unit * World :=
  let (r, s) := h (w, []) in
  let (r', s') := flush s in
  (match r with Ok _ => r' | TypeError => TypeError end, fst s').

(** The component is mounted from an element: the constructor runs on the
    props with their defaults, React attaches the children that the first
    [render] has, then [componentDidMount] runs.  [ta] and [mp] are the
    instances of the two children. *)
Definition mounted (element : Props.t) (ta : TextArea) (mp : MarkdownPreview)
    (d : node -> HTMLElement) (overflow : string) : World :=
  let p := withDefaults element in
  let st := constructor p in
  mkWorld p st (Some mp)
          (if existsb (fun c => match c with EditorPane => true | _ => false end)
                      (panes (render p st))
           then Some ta else None)
          None false d overflow [].

Definition mount (element : Props.t) (ta : TextArea) (mp : MarkdownPreview)
    (d : node -> HTMLElement) (overflow : string) : Result unit * World :=
  batched componentDidMount (mounted element ta mp d overflow).

(** The parent renders the component again with a new element. *)
Definition receiveProps (element : Props.t) (w : World) : Result unit * World :=
  let nextProps := withDefaults element in
  batched (UNSAFE_componentWillReceiveProps nextProps ;;;
           modify (with_props nextProps)) w.

(** *** The life of a mounted component *)

(** What happens to a mounted component: the parent renders it again, a
    handler that [render] installed is called, React attaches or detaches the
    children, the browser lays the page out again. *)
Inductive Event : Type :=
| NewProps (element : Props.t)
| Command (command : ICommand.t)
| Drag (newHeight : num)
| Scroll (e : UIEvent)
| MouseOver
| MouseLeave
| Edit (mdStr : option string)
| Refs (t : RefObject TextArea) (p : RefObject MarkdownPreview)
| Layout (d : node -> HTMLElement).

Definition with_dom (d : node -> HTMLElement) (w : World) : World :=
  mkWorld (props w) (state w) (preview w) (textarea w) (commandOrchestrator w)
          (leftScroll w) d (bodyOverflow w) (log w).

Definition dispatch (ev : Event) (w : World) : Result unit * World :=
  match ev with
  | NewProps element => receiveProps element w
  | Command command => batched (handleCommand command) w
  | Drag newHeight => batched (dragBarOnChange newHeight) w
  | Scroll e => batched (handleScroll e) w
  | MouseOver => batched onMouseOver w
  | MouseLeave => batched onMouseLeave w
  | Edit mdStr => batched (handleChange mdStr) w
  | Refs t p => (Ok tt, with_refs t p w)
  | Layout d => (Ok tt, with_dom d w)
  end.

(** the world after a sequence of events; an event whose handler throws
    leaves the world as the handler left it *)
Definition run (evs : list Event) (w : World) : World :=
  fold_left (fun w ev => snd (dispatch ev w)) evs w.

(** the state mirrors the [value] prop, and its [value], [fullscreen] and
    [height] are defined *)
Definition state_invariant (w : World) : Prop :=
  State.value (state w) = Props.value (props w) /\
  State.value (state w) <> None /\
  State.fullscreen (state w) <> None /\
  State.height (state w) <> None.

(** the refs, the fields of [this] that are not React's, and the page *)
Definition same_page (w w' : World) : Prop :=
  preview w' = preview w /\ textarea w' = textarea w /\
  commandOrchestrator w' = commandOrchestrator w /\
  leftScroll w' = leftScroll w /\ dom w' = dom w /\
  bodyOverflow w' = bodyOverflow w.

End Component.

Arguments M {N} A.

(** ** Two models of JavaScript numbers *)

(** IEEE 754 binary64 with round to nearest even: the numbers of a JavaScript
    engine.  [0 / 0] is [nan], [1 / 0] is [infinity]. *)
Definition float_of_Z (z : Z) : float :=
  match z with
  | Z0 => PrimFloat.zero
  | Zpos _ => PrimFloat.of_uint63 (Uint63.of_Z z)
  | Zneg p => PrimFloat.opp (PrimFloat.of_uint63 (Uint63.of_Z (Zpos p)))
  end.

Definition binary64 : JsNumber :=
  {| num := float;
     nlit := float_of_Z;
     nsub := PrimFloat.sub;
     nmul := PrimFloat.mul;
     ndiv := PrimFloat.div |}.

(** The standard model of floating point arithmetic: every operation returns
    the rounding [rnd] of the exact result.  What is asked of [rnd] is stated
    where it is used. *)
Definition rounded (rnd : R -> R) : JsNumber :=
  {| num := R;
     nlit := IZR;
     nsub := fun a b => rnd (a - b)%R;
     nmul := fun a b => rnd (a * b)%R;
     ndiv := fun a b => rnd (a / b)%R |}.

(** [rnd] has relative error at most [u] *)
Definition relative_error (rnd : R -> R) (u : R) : Prop :=
  forall x : R, (Rabs (rnd x - x) <= u * Rabs x)%R.

(** ** Concrete pages, for the examples *)

Module Sample.
Definition preview_command : ICommand.t := ICommand.mk "preview" (Some "preview").
Definition fullscreen_command : ICommand.t := ICommand.mk "fullscreen" None.

Definition textArea : TextArea := mkTextArea (Some (Some 1)) (Some 3).
Definition markdownPreview : MarkdownPreview := mkMarkdownPreview (Some (Some 2)).
Definition orchestrator : CommandOrchestrator := TextAreaCommandOrchestrator (Some 3).

(** an element [<MDEditor onChange={cb7} />], and the same with one more prop *)
Definition element {N : JsNumber} : Props.t :=
  Props.mk None (Some 7) None None None None None None None None None None None None
    None None None.

Definition fullscreen_element {N : JsNumber} : Props.t :=
  Props.mk None (Some 7) None None None (Some true) None None None None None None
    None None None None None.

Definition edit_element {N : JsNumber} : Props.t :=
  Props.mk None (Some 7) None None (Some "edit") None None None None None None None
    None None None None None.


Definition value_element {N : JsNumber} : Props.t :=
  Props.mk (Some "# title") (Some 7) None None None None None None None None None None
    None None None None None.

(** a page: the editor's wrapper is node 1, the preview's element is node 2,
    each given by its [scrollHeight], [offsetHeight] and [scrollTop] *)
Definition page {N : JsNumber} (editor preview : Z * Z * Z) (n : node) : HTMLElement :=
  let el := fun x : Z * Z * Z =>
    mkElement (nlit (fst (fst x))) (nlit (snd (fst x))) (nlit (snd x)) in
  match n with
  | 1 => el editor
  | 2 => el preview
  | _ => el (0, 0, 0)%Z
  end.

(** the editor's content fits (its scrollable range is 0), the preview's does
    not *)
Definition short_page {N : JsNumber} : node -> HTMLElement :=
  page (100, 100, 0)%Z (500, 200, 0)%Z.

(** the editor has a range of 300 and is scrolled to its end, the preview has
    a range of 600 *)
Definition long_page {N : JsNumber} : node -> HTMLElement :=
  page (400, 100, 300)%Z (700, 100, 0)%Z.

(** the component after it is mounted on a page *)
Definition mounted_on {N : JsNumber} (el : Props.t) (pg : node -> HTMLElement) : World :=
  snd (mount [] el textArea markdownPreview pg "").

(** the same with the pointer over the editor *)
Definition hovered_on {N : JsNumber} (el : Props.t) (pg : node -> HTMLElement) : World :=
  snd (batched onMouseOver (mounted_on el pg)).

Definition world : @World binary64 := mounted_on element short_page.

Definition fullscreen_world : @World binary64 := mounted_on fullscreen_element short_page.

(** [world] after the toolbar's preview command: the state shows the preview
    only, and React has unmounted the [TextArea] *)
Definition preview_only_world : @World binary64 :=
  with_refs None (Some markdownPreview)
            (snd (batched (handleCommand preview_command) world)).

(** exact arithmetic: the rounding that changes nothing *)
Definition exact : JsNumber := rounded (fun x => x).

(** a command of the toolbar that is neither [preview] nor [fullscreen] *)
Definition bold_command : ICommand.t := ICommand.mk "bold" None.

(** an element [<MDEditor preview='preview' onChange={cb7} />], and the
    component mounted from it *)
Definition preview_element {N : JsNumber} : Props.t :=
  Props.mk None (Some 7) None None (Some "preview") None None None None None None None
    None None None None None.

Definition preview_mounted_world : @World binary64 :=
  mounted_on preview_element short_page.

(** [world] after the toolbar's preview command, before React has touched
    the refs *)
Definition commanded_world : @World binary64 :=
  snd (batched (handleCommand preview_command) world).

(** the text area that [render] returns for [world] *)
Definition textArea_view : @View.TextArea binary64 :=
  @View.mkTextArea binary64 (Some (float_of_Z 2)) (Some "w-md-editor-input")
                   (Some "w-md-editor") (Some "") None None.
End Sample.

(** ** Properties *)

Section Properties.
Context {N : JsNumber}.
Variable getCommands : list ICommand.t.

(** *** How each method runs *)

Ltac unfold_monad :=
  unfold bind, ret, get, modify, when, setState, nonNull, throw; simpl.

Lemma with_state_same (w : World) : with_state (state w) w = w.
Proof. destruct w; reflexivity. Qed.

Lemma handleChange_run (mdStr : option string) (w : World) (q : list Update) :
  handleChange mdStr (w, q) =
  match preview w with
  | None => (TypeError, (w, q))
  | Some p =>
    (Ok tt,
     (match Props.onChange (props w) with
      | Some cb => emit (OnChange cb (Some (or_empty mdStr))) (emit (RenderHTML p mdStr) w)
      | None => emit (RenderHTML p mdStr) w
      end, q))
  end.
Proof.
  unfold handleChange; unfold_monad.
  destruct (preview w); [destruct (Props.onChange (props w))|]; reflexivity.
Qed.

Lemma handleCommand_run (command : ICommand.t) (w : World) :
  handleCommand command (w, []) =
  match commandOrchestrator w with
  | Some o => (Ok tt, (emit (ExecuteCommand o command) (command_page command w),
                       command_updates command w))
  | None => (TypeError, (command_page command w, command_updates command w))
  end.
Proof.
  unfold handleCommand, command_updates, command_page; unfold_monad.
  destruct (String.eqb (ICommand.keyCommand command) "preview");
    destruct (String.eqb (ICommand.keyCommand command) "fullscreen");
    simpl; destruct (commandOrchestrator w); reflexivity.
Qed.

(** a batch whose updates carry no callback only commits the state *)
Lemma flush_no_callback (w : World) (q : list Update) :
  callbacks q = [] ->
  flush (w, q) = (Ok tt, (with_state (apply_patches (state w) q) w, [])).
Proof.
  intros H; unfold flush; simpl; rewrite H; reflexivity.
Qed.

Lemma command_updates_no_callback (command : ICommand.t) (w : World) :
  callbacks (command_updates command w) = [].
Proof.
  unfold command_updates.
  destruct (String.eqb (ICommand.keyCommand command) "preview");
    destruct (String.eqb (ICommand.keyCommand command) "fullscreen"); reflexivity.
Qed.

(** [handleCommand] as React runs it, once the orchestrator exists: the
    state is committed with the command's updates, the page is written, and
    the command is handed to the orchestrator *)
Lemma handleCommand_batched (command : ICommand.t) (w : World) (o : CommandOrchestrator) :
  commandOrchestrator w = Some o ->
  batched (handleCommand command) w =
  (Ok tt,
   with_state (apply_patches (state w) (command_updates command w))
              (emit (ExecuteCommand o command) (command_page command w))).
Proof.
  intros Ho; unfold batched.
  rewrite handleCommand_run, Ho.
  rewrite flush_no_callback by apply command_updates_no_callback.
  simpl. do 3 f_equal.
  unfold command_page.
  destruct (String.eqb (ICommand.keyCommand command) "fullscreen"); reflexivity.
Qed.

(** *** The change pipeline *)

(** C10.  Whenever [handleChange] runs, what it adds to the log is the
    [renderHTML] call followed by at most one [onChange] call, and every
    [onChange] call it makes has a string for argument, never [undefined]: the
    empty string when the text is [undefined] or empty, the text itself
    otherwise.  With the preview mounted and an [onChange] prop the call is
    made.  User edits, the mount and a change of the [value] prop all go
    through [handleChange]. *)
Theorem handleChange_argument (mdStr : option string) (w : World) (q : list Update) :
  (exists added,
      log (fst (snd (handleChange mdStr (w, q)))) = log w ++ added /\
      forall cb a, In (OnChange cb a) added ->
        a = Some (or_empty mdStr) /\ a <> None /\
        (mdStr = None \/ mdStr = Some "" -> a = Some "") /\
        (forall s, mdStr = Some s -> s <> "" -> a = Some s)) /\
  (forall p cb, preview w = Some p -> Props.onChange (props w) = Some cb ->
      handleChange mdStr (w, q) =
      (Ok tt, (emit (OnChange cb (Some (or_empty mdStr))) (emit (RenderHTML p mdStr) w), q))).
Proof.
  split.
  - assert (Harg : forall a, a = Some (or_empty mdStr) ->
              a = Some (or_empty mdStr) /\ a <> None /\
              (mdStr = None \/ mdStr = Some "" -> a = Some "") /\
              (forall s, mdStr = Some s -> s <> "" -> a = Some s)).
    { intros a ->. split; [reflexivity|]. split; [discriminate|]. split.
      - intros [-> | ->]; reflexivity.
      - intros s -> Hs. simpl. apply String.eqb_neq in Hs. rewrite Hs. reflexivity. }
    rewrite handleChange_run.
    destruct (preview w) as [p|].
    + destruct (Props.onChange (props w)) as [cb|]; simpl.
      * exists [RenderHTML p mdStr; OnChange cb (Some (or_empty mdStr))].
        split; [rewrite <- app_assoc; reflexivity|].
        intros cb' a [H | [H | []]]; [discriminate|].
        inversion H; subst. apply Harg; reflexivity.
      * exists [RenderHTML p mdStr]. split; [reflexivity|].
        intros cb' a [H | []]; discriminate.
    + exists []. simpl. split; [symmetry; apply app_nil_r|]. intros cb a [].
  - intros p cb Hp Hcb. rewrite handleChange_run, Hp, Hcb. reflexivity.
Qed.

(** what [componentDidMount] adds to the log, whether or not it then reaches
    the orchestrator *)
Lemma componentDidMount_log (w : World) (p : MarkdownPreview) (cb : callback) :
  preview w = Some p -> Props.onChange (props w) = Some cb ->
  log (snd (batched componentDidMount w)) =
  log w ++ [RenderHTML p (State.value (state w));
            OnChange cb (Some (or_empty (State.value (state w))))].
Proof.
  intros Hp Hcb. unfold batched, componentDidMount.
  unfold bind at 1. unfold get at 1. simpl fst.
  unfold bind at 1. rewrite handleChange_run, Hp, Hcb.
  unfold_monad.
  destruct (textarea w); simpl; rewrite <- app_assoc; reflexivity.
Qed.

Lemma or_empty_some (s : string) : or_empty (Some s) = s.
Proof.
  simpl. destruct (String.eqb_spec s ""); congruence.
Qed.

Lemma str_seq_false (a b : option string) : a <> b -> str_seq a b = false.
Proof.
  destruct a as [x|], b as [y|]; simpl; intros H; try reflexivity.
  - apply String.eqb_neq. congruence.
  - congruence.
Qed.

(** C9.  Mounting the component calls [renderHTML] on the preview with the
    initial value and then the [onChange] prop, once, with that value; the
    initial value is the element's [value], or the empty string when the
    element has none.  Nothing else is called. *)
Theorem mount_change (element : Props.t) (ta : TextArea) (mp : MarkdownPreview)
    (d : node -> HTMLElement) (overflow : string) (cb : callback) :
  Props.onChange element = Some cb ->
  let initial := State.value (state (mounted getCommands element ta mp d overflow)) in
  initial = Some (or_empty (Props.value element)) /\
  log (snd (mount getCommands element ta mp d overflow)) =
  [RenderHTML mp initial; OnChange cb initial].
Proof.
  intros Hcb initial.
  assert (Hi : initial = Some (or_empty (Props.value element))).
  { unfold initial; simpl. destruct (Props.value element) as [s|]; simpl; [|reflexivity].
    destruct (String.eqb_spec s ""); congruence. }
  split; [exact Hi|].
  unfold mount. rewrite (componentDidMount_log _ mp cb).
  - fold initial. rewrite Hi at 2. simpl or_empty at 2.
    rewrite or_empty_some. rewrite <- Hi. reflexivity.
  - reflexivity.
  - simpl. rewrite Hcb. reflexivity.
Qed.

(** *** New props *)

Lemma componentWillReceiveProps_run (nextProps : Props.t) (w : World) :
  UNSAFE_componentWillReceiveProps nextProps (w, []) =
  (Ok tt, (w, props_updates nextProps w)).
Proof.
  unfold UNSAFE_componentWillReceiveProps, props_updates; unfold_monad.
  destruct (str_seq (Props.preview nextProps) (Props.preview (props w))); simpl;
    destruct (bool_seq (Props.fullscreen nextProps) (Props.fullscreen (props w))); simpl;
    destruct (str_seq (Props.value nextProps) (Props.value (props w)));
    reflexivity.
Qed.

Lemma receiveProps_run (element : Props.t) (w : World) :
  receiveProps getCommands element w =
  let nextProps := withDefaults getCommands element in
  let (r, s) := flush (with_props nextProps w, props_updates nextProps w) in
  (r, fst s).
Proof.
  unfold receiveProps, batched. unfold bind at 1.
  rewrite componentWillReceiveProps_run. unfold_monad.
  destruct (flush _) as [[|] ?]; reflexivity.
Qed.

(** C6.  When the component receives props whose [value] differs from the
    [value] it has, [renderHTML] is called once and the [onChange] prop once,
    both with the new value, and nothing else is called. *)
Theorem receiveProps_value (element : Props.t) (w : World) (p : MarkdownPreview)
    (cb : callback) :
  let nextProps := withDefaults getCommands element in
  preview w = Some p ->
  Props.onChange nextProps = Some cb ->
  Props.value nextProps <> Props.value (props w) ->
  fst (receiveProps getCommands element w) = Ok tt /\
  log (snd (receiveProps getCommands element w)) =
  log w ++ [RenderHTML p (Props.value nextProps); OnChange cb (Props.value nextProps)] /\
  State.value (state (snd (receiveProps getCommands element w))) = Props.value nextProps.
Proof.
  intros nextProps Hp Hcb Hv.
  rewrite receiveProps_run. fold nextProps. cbv zeta.
  assert (Hval : exists v, Props.value nextProps = Some v).
  { unfold nextProps; simpl. destruct (Props.value element); simpl; eauto. }
  destruct Hval as [v Hval]. clearbody nextProps.
  unfold flush, props_updates. simpl fst. simpl snd.
  rewrite (str_seq_false _ _ Hv). simpl negb. cbv iota.
  destruct (negb (str_seq (Props.preview nextProps) (Props.preview (props w))));
    destruct (negb (bool_seq (Props.fullscreen nextProps) (Props.fullscreen (props w))));
    simpl; unfold bind; rewrite handleChange_run; simpl; rewrite Hp, Hcb; simpl;
    rewrite Hval, or_empty_some, <- app_assoc; auto.
Qed.

Lemma runCallbacks_frame (cs : list Callback) (w : World) (q : list Update) :
  state (fst (snd (runCallbacks cs (w, q)))) = state w /\
  props (fst (snd (runCallbacks cs (w, q)))) = props w.
Proof.
  revert w q; induction cs as [|[v] cs IH]; intros w q; simpl; [split; reflexivity|].
  unfold bind. rewrite handleChange_run.
  destruct (preview w); [|split; reflexivity].
  destruct (Props.onChange (props w));
    match goal with
    | |- context [runCallbacks cs (?w1, ?q1)] =>
      destruct (IH w1 q1) as [H1 H2]; rewrite H1, H2
    end; split; reflexivity.
Qed.



(** *** The view *)

Lemma panes_render (p : Props.t) (st : State.t) :
  panes (render p st) =
  (if edit_or_live (tmpl (State.preview st)) then [EditorPane] else []) ++ [PreviewPane].
Proof.
  unfold panes, render. simpl View.content.
  rewrite !flat_map_app.
  destruct (edit_or_live (tmpl (State.preview st)));
    destruct (truthy (Props.visiableDragbar p)
              && negb (str_seq (State.preview st) (Some "preview"))
              && negb (truthy (State.fullscreen st))); reflexivity.
Qed.

Lemma append_assoc (a b c : string) : ((a ++ b) ++ c = a ++ b ++ c)%string.
Proof. induction a as [|x a IH]; simpl; [reflexivity | rewrite IH; reflexivity]. Qed.

Lemma append_empty (a : string) : (a ++ "" = a)%string.
Proof. induction a as [|x a IH]; simpl; [reflexivity | rewrite IH; reflexivity]. Qed.

Lemma concat_contains (sep x : string) (l : list string) :
  In x l -> exists a b, String.concat sep l = (a ++ x ++ b)%string.
Proof.
  induction l as [|y l IH]; [intros []|]. intros [-> | H].
  - destruct l as [|z l].
    + exists "", "". simpl. rewrite append_empty. reflexivity.
    + exists "", (sep ++ String.concat sep (z :: l))%string. reflexivity.
  - destruct l as [|z l]; [destruct H|].
    destruct (IH H) as (a & b & E).
    exists (y ++ sep ++ a)%string, b.
    change (String.concat sep (y :: z :: l))
      with (y ++ sep ++ String.concat sep (z :: l))%string.
    rewrite E, !append_assoc. reflexivity.
Qed.



(** *** The drag bar *)

(** C8.  The height the drag bar reports becomes the [height] of the state as
    it is; the other fields of the state, the props, the refs, the page and
    the log stay as they are. *)
Theorem dragBar_height (w : World) (newHeight : num) :
  batched (dragBarOnChange newHeight) w =
  (Ok tt,
   with_state (State.mk (Some (HNum newHeight)) (State.preview (state w))
                        (State.fullscreen (state w)) (State.value (state w)))
              w).
Proof. reflexivity. Qed.

(** *** Commands *)

(** C1, as the code has it.  A [preview] command sets the preview mode of
    the state to the value it carries, and is then handed to the orchestrator
    like every other command: [executeCommand] is called once with it.
    Nothing else changes. *)
Theorem handleCommand_preview (command : ICommand.t) (w : World)
    (o : CommandOrchestrator) :
  ICommand.keyCommand command = "preview" ->
  commandOrchestrator w = Some o ->
  batched (handleCommand command) w =
  (Ok tt,
   with_state (State.mk (State.height (state w)) (ICommand.value command)
                        (State.fullscreen (state w)) (State.value (state w)))
              (emit (ExecuteCommand o command) w)).
Proof.
  intros Hk Ho. rewrite (handleCommand_batched command w o Ho).
  unfold command_updates, command_page. rewrite Hk. reflexivity.
Qed.

(** a [fullscreen] command, once *)
Lemma handleCommand_fullscreen (command : ICommand.t) (w : World)
    (o : CommandOrchestrator) :
  ICommand.keyCommand command = "fullscreen" ->
  commandOrchestrator w = Some o ->
  batched (handleCommand command) w =
  (Ok tt,
   with_state (State.mk (State.height (state w)) (State.preview (state w))
                        (Some (negb (truthy (State.fullscreen (state w)))))
                        (State.value (state w)))
              (emit (ExecuteCommand o command)
                    (with_bodyOverflow
                       (if truthy (State.fullscreen (state w))
                        then "initial" else "hidden") w))).
Proof.
  intros Hk Ho. rewrite (handleCommand_batched command w o Ho).
  unfold command_updates, command_page. rewrite Hk. reflexivity.
Qed.

(** C4, as the code has it.  Two [fullscreen] commands in a row leave the
    fullscreen flag with the truth value it had (a flag that was a boolean is
    the same boolean again) and leave the other fields of the state alone.
    The overflow style of the body is not put back: it ends as ['hidden'] when
    the flag was set and as ['initial'] when it was not, whatever it was. *)
Theorem fullscreen_twice (command : ICommand.t) (w : World) (o : CommandOrchestrator) :
  ICommand.keyCommand command = "fullscreen" ->
  commandOrchestrator w = Some o ->
  let r1 := batched (handleCommand command) w in
  let r2 := batched (handleCommand command) (snd r1) in
  fst r1 = Ok tt /\ fst r2 = Ok tt /\
  State.fullscreen (state (snd r2)) = Some (truthy (State.fullscreen (state w))) /\
  (forall b, State.fullscreen (state w) = Some b ->
             state (snd r2) = state w) /\
  State.height (state (snd r2)) = State.height (state w) /\
  State.preview (state (snd r2)) = State.preview (state w) /\
  State.value (state (snd r2)) = State.value (state w) /\
  bodyOverflow (snd r2) =
  (if truthy (State.fullscreen (state w)) then "hidden" else "initial").
Proof.
  intros Hk Ho r1 r2. unfold r2, r1.
  rewrite (handleCommand_fullscreen command w o Hk Ho). simpl snd. simpl fst.
  rewrite (handleCommand_fullscreen command _ o Hk) by exact Ho.
  simpl. destruct (state w) as [h pv [[|]|] v]; simpl;
    repeat split; try reflexivity; intros b Hb; inversion Hb; reflexivity.
Qed.

(** *** Unavailable refs *)

Lemma handleScroll_run (e : UIEvent) (w : World) (q : list Update)
    (ta : TextArea) (pv : MarkdownPreview) (t p : node) :
  textarea w = Some ta -> preview w = Some pv ->
  warp ta = Some (Some t) -> mdp pv = Some (Some p) ->
  handleScroll e (w, q) =
  (Ok tt, (fold_left (fun w nv => write_scrollTop (fst nv) (snd nv) w)
                     (scroll_writes e t p w) w, q)).
Proof.
  intros Hta Hpv Ht Hp. unfold handleScroll, scroll_writes, scroll_scale.
  unfold_monad. rewrite Hta, Hpv, Hp, Ht. simpl.
  destruct (Nat.eqb (target e) t && leftScroll w) eqn:E1; simpl.
  - apply andb_prop in E1. destruct E1 as [_ ->].
    rewrite andb_false_r. reflexivity.
  - destruct (Nat.eqb (target e) p && negb (leftScroll w)); reflexivity.
Qed.

Lemma handleScroll_unavailable (e : UIEvent) (w : World) (q : list Update) :
  textarea w = None \/ preview w = None ->
  handleScroll e (w, q) = (Ok tt, (w, q)).
Proof.
  intros H. unfold handleScroll; unfold_monad.
  destruct (textarea w); destruct (preview w); try reflexivity.
  destruct H; discriminate.
Qed.

(** C5, as the code has it.  With the ref of the text input or of the preview
    unavailable, [handleScroll] returns without an error and changes nothing.
    [handleCommand] does not look at these refs: it ends the same way, with the
    same state, page and calls, whatever they hold. *)
Theorem unavailable_refs (w : World) :
  (forall e, textarea w = None \/ preview w = None ->
     batched (handleScroll e) w = (Ok tt, w)) /\
  (forall command t p,
     batched (handleCommand command) (with_refs t p w) =
     (fst (batched (handleCommand command) w),
      with_refs t p (snd (batched (handleCommand command) w)))).
Proof.
  split.
  - intros e H. unfold batched. rewrite (handleScroll_unavailable e w [] H).
    unfold flush. simpl. rewrite with_state_same. reflexivity.
  - intros command t p. unfold batched. rewrite !handleCommand_run.
    simpl commandOrchestrator.
    destruct (commandOrchestrator w);
      rewrite !flush_no_callback by apply command_updates_no_callback;
      unfold command_updates, command_page; simpl;
      destruct (String.eqb (ICommand.keyCommand command) "preview");
      destruct (String.eqb (ICommand.keyCommand command) "fullscreen");
      reflexivity.
Qed.

(** *** Scroll synchronisation *)

Lemma handleScroll_batched (e : UIEvent) (w : World)
    (ta : TextArea) (pv : MarkdownPreview) (t p : node) :
  textarea w = Some ta -> preview w = Some pv ->
  warp ta = Some (Some t) -> mdp pv = Some (Some p) ->
  batched (handleScroll e) w =
  (Ok tt, fold_left (fun w nv => write_scrollTop (fst nv) (snd nv) w)
                    (scroll_writes e t p w) w).
Proof.
  intros Hta Hpv Ht Hp. unfold batched.
  rewrite (handleScroll_run e w [] ta pv t p Hta Hpv Ht Hp).
  unfold flush. simpl. rewrite with_state_same. reflexivity.
Qed.

(** C2, as the code has it.  With both elements available, [handleScroll]
    writes a scroll offset exactly when the event comes from the editor while
    the editor drives or from the preview while the preview drives: one write,
    to the other pane, of the quotient or product with the scale.  The
    scrollable ranges take no part in whether the write is made; a range of
    zero does not suppress it. *)
Theorem handleScroll_writes (e : UIEvent) (w : World)
    (ta : TextArea) (pv : MarkdownPreview) (t p : node) :
  textarea w = Some ta -> preview w = Some pv ->
  warp ta = Some (Some t) -> mdp pv = Some (Some p) ->
  let scale :=
    ndiv (nsub (scrollHeight (dom w t)) (offsetHeight (dom w t)))
         (nsub (scrollHeight (dom w p)) (offsetHeight (dom w p))) in
  let from_editor := Nat.eqb (target e) t && leftScroll w in
  let from_preview := Nat.eqb (target e) p && negb (leftScroll w) in
  let r := batched (handleScroll e) w in
  fst r = Ok tt /\
  log (snd r) =
  log w ++ (if from_editor then [ScrollTopWrite p (ndiv (scrollTop (dom w t)) scale)]
            else if from_preview then [ScrollTopWrite t (nmul (scrollTop (dom w p)) scale)]
            else []) /\
  (log (snd r) = log w <-> from_editor = false /\ from_preview = false).
Proof.
  intros Hta Hpv Ht Hp scale from_editor from_preview r.
  unfold r. rewrite (handleScroll_batched e w ta pv t p Hta Hpv Ht Hp).
  unfold scroll_writes, scroll_scale. fold scale from_editor from_preview.
  simpl fst. simpl snd.
  assert (Hneq : forall (l : list Effect) x, l ++ [x] = l -> False).
  { intros l x H. apply (f_equal (@length _)) in H.
    rewrite length_app in H. simpl in H. lia. }
  destruct from_editor; [|destruct from_preview]; simpl.
  - split; [reflexivity|]. split; [reflexivity|]. split.
    + intros H. exfalso. exact (Hneq _ _ H).
    + intros [H _]. discriminate.
  - split; [reflexivity|]. split; [reflexivity|]. split.
    + intros H. exfalso. exact (Hneq _ _ H).
    + intros [_ H]. discriminate.
  - rewrite app_nil_r. repeat split; reflexivity.
Qed.

(** the offsets [handleScroll] writes, for any arithmetic *)
Lemma handleScroll_formulas (e : UIEvent) (w : World)
    (ta : TextArea) (pv : MarkdownPreview) (t p : node) :
  textarea w = Some ta -> preview w = Some pv ->
  warp ta = Some (Some t) -> mdp pv = Some (Some p) ->
  let scale :=
    ndiv (nsub (scrollHeight (dom w t)) (offsetHeight (dom w t)))
         (nsub (scrollHeight (dom w p)) (offsetHeight (dom w p))) in
  let w' := snd (batched (handleScroll e) w) in
  (target e = t -> leftScroll w = true ->
   scrollTop (dom w' p) = ndiv (scrollTop (dom w t)) scale) /\
  (target e = p -> leftScroll w = false ->
   scrollTop (dom w' t) = nmul (scrollTop (dom w p)) scale).
Proof.
  intros Hta Hpv Ht Hp scale w'.
  unfold w'. rewrite (handleScroll_batched e w ta pv t p Hta Hpv Ht Hp).
  unfold scroll_writes, scroll_scale. fold scale. simpl snd.
  split; intros He Hl; rewrite He, Hl, Nat.eqb_refl; simpl.
  - rewrite Nat.eqb_refl. reflexivity.
  - rewrite andb_false_r. simpl. rewrite Nat.eqb_refl. reflexivity.
Qed.

End Properties.

(** *** Rounding *)

Section Rounding.
Local Open Scope R_scope.
Variable rnd : R -> R.
Variable u : R.
Hypothesis Hrnd : relative_error rnd u.
Hypothesis Hu : 0 <= u <= 1 / 4.

Lemma rnd_factor (x : R) : exists d, Rabs d <= u /\ rnd x = x * (1 + d).
Proof.
  destruct (Req_dec x 0) as [-> | Hx].
  - exists 0. split.
    + rewrite Rabs_R0. lra.
    + specialize (Hrnd 0). rewrite Rabs_R0, Rmult_0_r, Rminus_0_r in Hrnd.
      assert (H0 := Rabs_pos (rnd 0)).
      assert (Rabs (rnd 0) = 0) by lra.
      destruct (Req_dec (rnd 0) 0) as [E | E]; [rewrite E; ring|].
      apply Rabs_no_R0 in E. contradiction.
  - exists ((rnd x - x) / x). split.
    + unfold Rdiv. rewrite Rabs_mult, Rabs_inv.
      specialize (Hrnd x).
      assert (Hp : 0 < Rabs x) by (apply Rabs_pos_lt; exact Hx).
      apply (Rmult_le_reg_r (Rabs x)); [exact Hp|].
      rewrite Rmult_assoc, Rinv_l by lra. lra.
    + field. exact Hx.
Qed.

Lemma Rabs_bound (d : R) : Rabs d <= u -> - u <= d <= u.
Proof.
  intros H. unfold Rabs in H. destruct (Rcase_abs d); lra.
Qed.

(** the editor at the end of its range [te] sends the preview to the end of
    its range [pr], up to the two roundings *)
Lemma max_to_max_div (te pr : R) :
  te <> 0 -> pr <> 0 ->
  Rabs (rnd (te / rnd (te / pr)) - pr) <= 3 * u * Rabs pr.
Proof.
  intros Hte Hpr.
  destruct (rnd_factor (te / pr)) as [d1 [Hd1 E1]].
  destruct (rnd_factor (te / rnd (te / pr))) as [d2 [Hd2 E2]].
  rewrite E2, E1.
  apply Rabs_bound in Hd1. apply Rabs_bound in Hd2.
  assert (H1 : 0 < 1 + d1) by lra.
  replace (te / (te / pr * (1 + d1)) * (1 + d2) - pr)
    with (((d2 - d1) / (1 + d1)) * pr) by (field; repeat split; lra).
  rewrite Rabs_mult.
  apply Rmult_le_compat_r; [apply Rabs_pos|].
  apply Rabs_le.
  split; apply (Rmult_le_reg_r (1 + d1)); try exact H1;
    unfold Rdiv; rewrite Rmult_assoc, Rinv_l by lra; nra.
Qed.

(** and the preview at the end of its range sends the editor to the end of
    its range *)
Lemma max_to_max_mul (te pr : R) :
  pr <> 0 ->
  Rabs (rnd (pr * rnd (te / pr)) - te) <= 3 * u * Rabs te.
Proof.
  intros Hpr.
  destruct (rnd_factor (te / pr)) as [d1 [Hd1 E1]].
  destruct (rnd_factor (pr * rnd (te / pr))) as [d2 [Hd2 E2]].
  rewrite E2, E1.
  apply Rabs_bound in Hd1. apply Rabs_bound in Hd2.
  replace (pr * (te / pr * (1 + d1)) * (1 + d2) - te)
    with ((d1 + d2 + d1 * d2) * te) by (field; lra).
  rewrite Rabs_mult.
  apply Rmult_le_compat_r; [apply Rabs_pos|].
  apply Rabs_le. split; nra.
Qed.

End Rounding.

(** C3.  With both elements available, the scale is the editor's scrollable
    range over the preview's; an event from the editor while the editor
    drives sets the preview's offset to the editor's offset over the scale,
    an event from the preview while the preview drives sets the editor's
    offset to the preview's offset times the scale.  This holds for every
    arithmetic.  When every operation is the rounding of the exact one, with
    relative error at most [u] (binary64 without overflow or underflow has
    [u = 2^-53]), and both ranges are not zero, the driving pane at the end of
    its range puts the other pane within [3 u] of the end of its own range,
    relatively. *)
Theorem handleScroll_proportional :
  (forall (N : JsNumber) (e : UIEvent) (w : World)
          (ta : TextArea) (pv : MarkdownPreview) (t p : node),
     textarea w = Some ta -> preview w = Some pv ->
     warp ta = Some (Some t) -> mdp pv = Some (Some p) ->
     let scale :=
       ndiv (nsub (scrollHeight (dom w t)) (offsetHeight (dom w t)))
            (nsub (scrollHeight (dom w p)) (offsetHeight (dom w p))) in
     let w' := snd (batched (handleScroll e) w) in
     (target e = t -> leftScroll w = true ->
      scrollTop (dom w' p) = ndiv (scrollTop (dom w t)) scale) /\
     (target e = p -> leftScroll w = false ->
      scrollTop (dom w' t) = nmul (scrollTop (dom w p)) scale)) /\
  (forall (rnd : R -> R) (u : R),
     relative_error rnd u -> (0 <= u <= 1 / 4)%R ->
     forall (e : UIEvent) (w : @World (rounded rnd))
            (ta : TextArea) (pv : MarkdownPreview) (t p : node),
     textarea w = Some ta -> preview w = Some pv ->
     warp ta = Some (Some t) -> mdp pv = Some (Some p) ->
     let editor_range : R := nsub (scrollHeight (dom w t)) (offsetHeight (dom w t)) in
     let preview_range : R := nsub (scrollHeight (dom w p)) (offsetHeight (dom w p)) in
     editor_range <> 0%R -> preview_range <> 0%R ->
     let w' := snd (batched (handleScroll e) w) in
     (target e = t -> leftScroll w = true -> scrollTop (dom w t) = editor_range ->
      (Rabs (scrollTop (dom w' p) - preview_range) <= 3 * u * Rabs preview_range)%R) /\
     (target e = p -> leftScroll w = false -> scrollTop (dom w p) = preview_range ->
      (Rabs (scrollTop (dom w' t) - editor_range) <= 3 * u * Rabs editor_range)%R)).
Proof.
  split.
  - intros N e w ta pv t p Hta Hpv Ht Hp. exact (handleScroll_formulas e w ta pv t p Hta Hpv Ht Hp).
  - intros rnd u Hrnd Hu e w ta pv t p Hta Hpv Ht Hp editor_range preview_range Hte Hpr w'.
    destruct (handleScroll_formulas e w ta pv t p Hta Hpv Ht Hp) as [F1 F2].
    fold w' in F1, F2. split.
    + intros He Hl Hmax. rewrite (F1 He Hl), Hmax.
      exact (max_to_max_div rnd u Hrnd Hu editor_range preview_range Hte Hpr).
    + intros He Hl Hmax. rewrite (F2 He Hl), Hmax.
      exact (max_to_max_mul rnd u Hrnd Hu editor_range preview_range Hpr).
Qed.


(** ** The properties on a concrete page *)

Lemma handleChange_argument_witness :
  handleChange (N := binary64) None (Sample.world, []) =
  (Ok tt, (emit (OnChange 7 (Some ""))
             (emit (RenderHTML Sample.markdownPreview None) Sample.world), [])).
Proof.
  apply (proj2 (@handleChange_argument binary64 None Sample.world []));
    reflexivity.
Defined.

Lemma mount_change_witness :
  Props.onChange (Sample.element (N := binary64)) = Some 7 /\
  log (snd (mount [] (Sample.element (N := binary64)) Sample.textArea
                  Sample.markdownPreview Sample.short_page "")) =
  [RenderHTML Sample.markdownPreview (Some ""); OnChange 7 (Some "")].
Proof.
  split; [reflexivity|].
  exact (proj2 (@mount_change binary64 [] Sample.element Sample.textArea
                  Sample.markdownPreview Sample.short_page "" 7 eq_refl)).
Defined.

Lemma receiveProps_value_witness :
  preview Sample.world = Some Sample.markdownPreview /\
  Props.value (withDefaults [] (Sample.value_element (N := binary64))) <>
  Props.value (props Sample.world) /\
  log (snd (receiveProps [] Sample.value_element Sample.world)) =
  log Sample.world ++ [RenderHTML Sample.markdownPreview (Some "# title");
                       OnChange 7 (Some "# title")].
Proof.
  assert (Hv : Props.value (withDefaults [] (Sample.value_element (N := binary64))) <>
               Props.value (props Sample.world)) by (vm_compute; discriminate).
  split; [reflexivity|]. split; [exact Hv|].
  exact (proj1 (proj2 (@receiveProps_value binary64 [] Sample.value_element Sample.world
                         Sample.markdownPreview 7 eq_refl eq_refl Hv))).
Defined.


Lemma handleCommand_preview_witness :
  ICommand.keyCommand Sample.preview_command = "preview" /\
  commandOrchestrator Sample.world = Some Sample.orchestrator /\
  batched (handleCommand Sample.preview_command) Sample.world =
  (Ok tt,
   with_state (State.mk (State.height (state Sample.world)) (Some "preview")
                        (State.fullscreen (state Sample.world))
                        (State.value (state Sample.world)))
              (emit (ExecuteCommand Sample.orchestrator Sample.preview_command)
                    Sample.world)).
Proof.
  split; [reflexivity|]. split; [reflexivity|].
  exact (@handleCommand_preview binary64 Sample.preview_command Sample.world
           Sample.orchestrator eq_refl eq_refl).
Defined.

Lemma fullscreen_twice_witness :
  ICommand.keyCommand Sample.fullscreen_command = "fullscreen" /\
  commandOrchestrator Sample.world = Some Sample.orchestrator /\
  State.fullscreen
    (state (snd (batched (handleCommand Sample.fullscreen_command)
                   (snd (batched (handleCommand Sample.fullscreen_command)
                           Sample.world))))) = Some false.
Proof.
  split; [reflexivity|]. split; [reflexivity|].
  exact (proj1 (proj2 (proj2
           (@fullscreen_twice binary64 Sample.fullscreen_command Sample.world
              Sample.orchestrator eq_refl eq_refl)))).
Defined.

Lemma unavailable_refs_witness :
  textarea Sample.preview_only_world = None /\
  batched (handleScroll (mkEvent 2)) Sample.preview_only_world =
  (Ok tt, Sample.preview_only_world).
Proof.
  split; [reflexivity|].
  apply (proj1 (@unavailable_refs binary64 Sample.preview_only_world)).
  left; reflexivity.
Defined.

Lemma handleScroll_writes_witness :
  let w := Sample.hovered_on (N := binary64) Sample.element Sample.long_page in
  textarea w = Some Sample.textArea /\ preview w = Some Sample.markdownPreview /\
  warp Sample.textArea = Some (Some 1) /\ mdp Sample.markdownPreview = Some (Some 2) /\
  log (snd (batched (handleScroll (mkEvent 1)) w)) =
  log w ++ [@ScrollTopWrite binary64 2 (float_of_Z 600)].
Proof.
  intros w. repeat (split; [reflexivity|]).
  exact (proj1 (proj2 (@handleScroll_writes binary64 (mkEvent 1) w Sample.textArea
                         Sample.markdownPreview 1 2 eq_refl eq_refl eq_refl eq_refl))).
Defined.

Lemma exact_relative_error : relative_error (fun x => x) 0.
Proof.
  intros x. rewrite Rminus_diag, Rabs_R0. lra.
Qed.

Lemma handleScroll_proportional_witness :
  (let w := Sample.hovered_on (N := binary64) Sample.element Sample.long_page in
   scrollTop (dom (snd (batched (handleScroll (mkEvent 1)) w)) 2) = float_of_Z 600) /\
  (let w := Sample.hovered_on (N := Sample.exact) Sample.element Sample.long_page in
   (400 - 100 <> 0)%R /\ (700 - 100 <> 0)%R /\
   (Rabs (scrollTop (dom (snd (batched (handleScroll (mkEvent 1%nat)) w)) 2%nat)
          - (700 - 100))
    <= 3 * 0 * Rabs (700 - 100))%R).
Proof.
  destruct handleScroll_proportional as [formulas maximum]. split.
  - intros w.
    exact (proj1 (formulas binary64 (mkEvent 1) w Sample.textArea Sample.markdownPreview
                    1 2 eq_refl eq_refl eq_refl eq_refl) eq_refl eq_refl).
  - intros w.
    assert (Hte : (400 - 100 <> 0)%R) by lra.
    assert (Hpr : (700 - 100 <> 0)%R) by lra.
    assert (Hu : (0 <= 0 <= 1 / 4)%R) by lra.
    assert (Hmax : @scrollTop Sample.exact (dom w 1%nat) = (400 - 100)%R)
      by (change (300 = 400 - 100)%R; lra).
    split; [exact Hte|]. split; [exact Hpr|].
    exact (proj1 (maximum (fun x => x) 0%R exact_relative_error Hu (mkEvent 1) w
                    Sample.textArea Sample.markdownPreview 1%nat 2%nat
                    eq_refl eq_refl eq_refl eq_refl Hte Hpr) eq_refl eq_refl Hmax).
Defined.

(** *** Where the code departs from the specification *)

(** C1.  A [preview] command carrying ["preview"] reaches the orchestrator:
    the log gains the [executeCommand] call. *)
Lemma preview_command_reaches_orchestrator :
  let r := batched (handleCommand Sample.preview_command) Sample.world in
  fst r = Ok tt /\
  State.preview (state (snd r)) = Some "preview" /\
  log (snd r) =
  log Sample.world ++ [ExecuteCommand Sample.orchestrator Sample.preview_command].
Proof. vm_compute. repeat split. Qed.

(** C2.  The editor's content fits, so its scrollable range is zero; a scroll
    event from the editor while it drives writes [0 / (0 / 300)], which is
    [NaN], to the preview's [scrollTop]. *)
Lemma zero_range_writes_nan :
  let w := Sample.hovered_on (N := binary64) Sample.element Sample.short_page in
  let r := batched (handleScroll (mkEvent 1)) w in
  PrimFloat.sub (scrollHeight (dom w 1)) (offsetHeight (dom w 1)) = PrimFloat.zero /\
  log (snd r) = log w ++ [@ScrollTopWrite binary64 2 PrimFloat.nan] /\
  scrollTop (dom (snd r) 2) = PrimFloat.nan.
Proof. vm_compute. repeat split. Qed.

(** C4.  The body has no overflow style and the component is not in
    fullscreen: after two [fullscreen] commands the style is ['initial'].  The
    component is mounted in fullscreen on the same body: after two commands
    the style is ['hidden']. *)
Lemma fullscreen_twice_overflow :
  (let w := Sample.world in
   let w2 := snd (batched (handleCommand Sample.fullscreen_command)
                    (snd (batched (handleCommand Sample.fullscreen_command) w))) in
   State.fullscreen (state w) = Some false /\ bodyOverflow w = "" /\
   bodyOverflow w2 = "initial" /\ bodyOverflow w2 <> bodyOverflow w) /\
  (let w := Sample.fullscreen_world in
   let w2 := snd (batched (handleCommand Sample.fullscreen_command)
                    (snd (batched (handleCommand Sample.fullscreen_command) w))) in
   State.fullscreen (state w) = Some true /\ bodyOverflow w = "" /\
   bodyOverflow w2 = "hidden" /\ bodyOverflow w2 <> bodyOverflow w).
Proof. vm_compute. repeat split; discriminate. Qed.

(** C5.  The preview is shown alone and the text input's ref is [null]; a
    [fullscreen] command still sets the flag, writes the body's overflow style
    and calls the orchestrator. *)
Lemma command_without_textarea_ref :
  let w := Sample.preview_only_world in
  let r := batched (handleCommand Sample.fullscreen_command) w in
  textarea w = None /\
  State.fullscreen (state w) = Some false /\
  State.fullscreen (state (snd r)) = Some true /\
  bodyOverflow w = "" /\ bodyOverflow (snd r) = "hidden" /\
  log (snd r) =
  log w ++ [ExecuteCommand Sample.orchestrator Sample.fullscreen_command] /\
  snd r <> w.
Proof.
  cbv zeta. repeat (split; [vm_compute; reflexivity|]).
  intros H. apply (f_equal bodyOverflow) in H. vm_compute in H. discriminate.
Qed.


(** *** Further checks of the model *)

(** mounted with the preview alone, the component has no text area to give
    to the orchestrator: [componentDidMount] throws after the change pipeline
    has run *)
Example mount_preview_only :
  let r := mount [] (@Props.mk binary64 None (Some 7) None None (Some "preview") None
                       None None None None None None None None None None None)
                 Sample.textArea Sample.markdownPreview Sample.short_page "" in
  fst r = TypeError /\ commandOrchestrator (snd r) = None /\
  log (snd r) = [RenderHTML Sample.markdownPreview (Some ""); OnChange 7 (Some "")].
Proof. vm_compute. repeat split. Qed.

(** a [style] prop replaces the style of the root, and the [value] key of
    [textareaProps] replaces the value given to the text area *)
Example spreads_replace_attributes :
  let p := @Props.mk binary64 (Some "from props") (Some 7) None None None None None None
             None None None None None None None
             (Some (@ITextAreaProps.mk binary64 None None None
                      (Some (Some "from textareaProps")) None))
             (Some (Some [("color", @HStr binary64 "red")])) in
  let w := Sample.mounted_on p Sample.short_page in
  let view := render (props w) (state w) in
  View.style view = View.PropStyle (Some [("color", @HStr binary64 "red")]) /\
  map (fun c => match c with
                | View.TextAreaEl a => View.value a
                | _ => None
                end) (View.content view) =
  [Some "from textareaProps"; None; None].
Proof. vm_compute. split; reflexivity. Qed.

(** the preview scrolled to the end of its range, while it drives, sends the
    editor to the end of its own *)
Example preview_drives_editor :
  let w := Sample.mounted_on (N := binary64) Sample.element
             (Sample.page (400, 100, 0)%Z (700, 100, 600)%Z) in
  scrollTop (dom (snd (batched (handleScroll (mkEvent 2)) w)) 1) = float_of_Z 300.
Proof. vm_compute. reflexivity. Qed.

(** ** More of the component's behaviour *)

Section Behaviour.
Context {N : JsNumber}.
Variable getCommands : list ICommand.t.

Ltac unfold_monad :=
  unfold bind, ret, get, modify, when, setState, nonNull, throw; simpl.

Lemma str_seq_refl (a : option string) : str_seq a a = true.
Proof. destruct a; simpl; [apply String.eqb_refl | reflexivity]. Qed.

Lemma bool_seq_refl (a : option bool) : bool_seq a a = true.
Proof. destruct a as [[|]|]; reflexivity. Qed.

Lemma str_seq_true (a b : option string) : str_seq a b = true -> a = b.
Proof.
  destruct a, b; simpl; intros H; try discriminate; [|reflexivity].
  apply String.eqb_eq in H. congruence.
Qed.

Lemma same_page_refl (w : World) : same_page w w.
Proof. repeat split. Qed.

Lemma same_page_trans (w1 w2 w3 : World) :
  same_page w1 w2 -> same_page w2 w3 -> same_page w1 w3.
Proof.
  unfold same_page. intros (A1 & A2 & A3 & A4 & A5 & A6) (B1 & B2 & B3 & B4 & B5 & B6).
  repeat split; congruence.
Qed.

(** the [setState] callbacks only call collaborators *)
Lemma runCallbacks_same_page (cs : list Callback) (w : World) (q : list Update) :
  same_page w (fst (snd (runCallbacks cs (w, q)))).
Proof.
  revert w q; induction cs as [|[v] cs IH]; intros w q; simpl;
    [apply same_page_refl|].
  unfold bind. rewrite handleChange_run.
  destruct (preview w); [|apply same_page_refl].
  destruct (Props.onChange (props w));
    match goal with
    | |- context [runCallbacks cs (?w1, ?q1)] =>
      apply (same_page_trans w w1); [repeat split | apply IH]
    end.
Qed.

(** the world after new props, field by field *)
Lemma receiveProps_fields (element : Props.t) (w : World) :
  let nextProps := withDefaults getCommands element in
  let w' := snd (receiveProps getCommands element w) in
  props w' = nextProps /\
  state w' = apply_patches (state w) (props_updates nextProps w) /\
  same_page w w'.
Proof.
  intros nextProps w'. unfold w'. rewrite receiveProps_run. fold nextProps. cbv zeta.
  clearbody nextProps. unfold flush. simpl fst. simpl snd.
  rewrite (surjective_pairing (runCallbacks _ _)). simpl snd.
  set (w1 := with_state (apply_patches (state w) (props_updates nextProps w))
                        (with_props nextProps w)).
  destruct (runCallbacks_frame (callbacks (props_updates nextProps w)) w1 [])
    as [H1 H2].
  rewrite H1, H2. split; [reflexivity|]. split; [reflexivity|].
  apply (same_page_trans w w1); [repeat split | apply runCallbacks_same_page].
Qed.

(** X1.  New props whose [preview], [fullscreen] and [value] are those the
    component has change [this.props] and nothing else: the state is kept, also
    where a toolbar command had moved it away from the props, and no
    collaborator is called. *)
Theorem receiveProps_unchanged (element : Props.t) (w : World) :
  let nextProps := withDefaults getCommands element in
  Props.preview nextProps = Props.preview (props w) ->
  Props.fullscreen nextProps = Props.fullscreen (props w) ->
  Props.value nextProps = Props.value (props w) ->
  receiveProps getCommands element w = (Ok tt, with_props nextProps w).
Proof.
  intros nextProps Hp Hf Hv. rewrite receiveProps_run. fold nextProps. cbv zeta.
  clearbody nextProps. unfold props_updates.
  rewrite Hp, Hf, Hv, !str_seq_refl, bool_seq_refl. simpl.
  unfold flush. simpl. destruct w; reflexivity.
Qed.

(** X2.  A change of the [fullscreen] prop sets the flag of the state and
    leaves the page alone: unlike the fullscreen command it does not write the
    overflow style of the body.  New props never touch the refs, the
    orchestrator, the driving flag or the elements. *)
Theorem receiveProps_fullscreen (element : Props.t) (w : World) :
  let nextProps := withDefaults getCommands element in
  let w' := snd (receiveProps getCommands element w) in
  same_page w w' /\
  (Props.fullscreen nextProps <> Props.fullscreen (props w) ->
   State.fullscreen (state w') = Props.fullscreen nextProps /\
   bodyOverflow w' = bodyOverflow w).
Proof.
  intros nextProps w'.
  destruct (receiveProps_fields element w) as (_ & Hs & Hpage).
  fold nextProps w' in Hs, Hpage. clearbody nextProps w'. split; [exact Hpage|].
  intros Hne. split; [|apply Hpage].
  rewrite Hs. unfold props_updates.
  assert (Hb : bool_seq (Props.fullscreen nextProps) (Props.fullscreen (props w)) = false).
  { destruct (Props.fullscreen nextProps) as [[|]|], (Props.fullscreen (props w)) as [[|]|];
      simpl; congruence. }
  rewrite Hb. simpl negb. cbv iota.
  destruct (negb (str_seq (Props.preview nextProps) (Props.preview (props w))));
    destruct (negb (str_seq (Props.value nextProps) (Props.value (props w))));
    reflexivity.
Qed.

(** X3.  The [height] prop is read by the constructor only: whatever the new
    props are, the height of the state stays what it was. *)
Theorem receiveProps_height (element : Props.t) (w : World) :
  State.height (state (snd (receiveProps getCommands element w))) =
  State.height (state w).
Proof.
  destruct (receiveProps_fields element w) as (_ & Hs & _).
  rewrite Hs. set (nextProps := withDefaults getCommands element). clearbody nextProps.
  unfold props_updates.
  destruct (negb (str_seq _ (Props.preview (props w))));
    destruct (negb (bool_seq _ (Props.fullscreen (props w))));
    destruct (negb (str_seq _ (Props.value (props w))));
    reflexivity.
Qed.

(** X4.  New props with the [value] the component has call neither
    [renderHTML] nor [onChange], whatever else they change. *)
Theorem receiveProps_same_value (element : Props.t) (w : World) :
  Props.value (withDefaults getCommands element) = Props.value (props w) ->
  fst (receiveProps getCommands element w) = Ok tt /\
  log (snd (receiveProps getCommands element w)) = log w.
Proof.
  intros Hv. rewrite receiveProps_run. cbv zeta.
  set (nextProps := withDefaults getCommands element) in *. clearbody nextProps.
  unfold flush, props_updates. simpl fst. simpl snd.
  rewrite Hv, str_seq_refl. simpl negb. cbv iota.
  destruct (negb (str_seq _ (Props.preview (props w))));
    destruct (negb (bool_seq _ (Props.fullscreen (props w))));
    split; reflexivity.
Qed.

(** *** Commands *)

(** X5.  A command that is neither [preview] nor [fullscreen] changes nothing
    in the component or the page: it is handed to the orchestrator, once. *)
Theorem handleCommand_other (command : ICommand.t) (w : World) (o : CommandOrchestrator) :
  ICommand.keyCommand command <> "preview" ->
  ICommand.keyCommand command <> "fullscreen" ->
  commandOrchestrator w = Some o ->
  batched (handleCommand command) w = (Ok tt, emit (ExecuteCommand o command) w).
Proof.
  intros Hp Hf Ho. rewrite (handleCommand_batched command w o Ho).
  unfold command_updates, command_page.
  apply String.eqb_neq in Hp. apply String.eqb_neq in Hf. rewrite Hp, Hf.
  destruct w; reflexivity.
Qed.

(** the state and the page after a command, with or without an orchestrator *)
Lemma handleCommand_fields (command : ICommand.t) (w : World) :
  let w' := snd (batched (handleCommand command) w) in
  props w' = props w /\
  state w' = apply_patches (state w) (command_updates command w) /\
  preview w' = preview w /\ textarea w' = textarea w /\
  commandOrchestrator w' = commandOrchestrator w /\
  leftScroll w' = leftScroll w /\ dom w' = dom w /\
  bodyOverflow w' = bodyOverflow (command_page command w).
Proof.
  intros w'. unfold w', batched. rewrite handleCommand_run.
  destruct (commandOrchestrator w) eqn:Ho;
    rewrite flush_no_callback by apply command_updates_no_callback;
    unfold command_page; simpl;
    destruct (String.eqb (ICommand.keyCommand command) "fullscreen");
    simpl; rewrite ?Ho; repeat split; reflexivity.
Qed.

(** X6.  Without an orchestrator, [handleCommand] throws a [TypeError] and
    calls nothing; a [fullscreen] command has by then written the overflow
    style of the body. *)
Theorem handleCommand_no_orchestrator (command : ICommand.t) (w : World) :
  commandOrchestrator w = None ->
  let r := batched (handleCommand command) w in
  fst r = TypeError /\
  log (snd r) = log w /\
  (ICommand.keyCommand command = "fullscreen" ->
   bodyOverflow (snd r) =
   if truthy (State.fullscreen (state w)) then "initial" else "hidden").
Proof.
  intros Ho r. unfold r, batched. rewrite handleCommand_run, Ho.
  rewrite flush_no_callback by apply command_updates_no_callback.
  unfold command_page. simpl. split; [reflexivity|]. split.
  - destruct (String.eqb (ICommand.keyCommand command) "fullscreen"); reflexivity.
  - intros ->. reflexivity.
Qed.

(** X7.  After a [fullscreen] command on a boolean flag, the flag is the
    opposite boolean and the overflow style of the body is ['hidden'] exactly
    when the component is then in fullscreen, ['initial'] otherwise. *)
Theorem fullscreen_command_lock (command : ICommand.t) (w : World)
    (o : CommandOrchestrator) (b : bool) :
  ICommand.keyCommand command = "fullscreen" ->
  commandOrchestrator w = Some o ->
  State.fullscreen (state w) = Some b ->
  let w' := snd (batched (handleCommand command) w) in
  State.fullscreen (state w') = Some (negb b) /\
  bodyOverflow w' = (if negb b then "hidden" else "initial") /\
  (bodyOverflow w' = "hidden" <-> State.fullscreen (state w') = Some true).
Proof.
  intros Hk Ho Hb w'. unfold w'.
  rewrite (handleCommand_fullscreen command w o Hk Ho). simpl. rewrite Hb.
  destruct b; simpl; repeat split; intros; try reflexivity; discriminate.
Qed.

(** *** Mounting *)

Lemma componentDidMount_run (w : World) (p : MarkdownPreview) :
  preview w = Some p ->
  batched componentDidMount w =
  let w1 := match Props.onChange (props w) with
            | Some cb => emit (OnChange cb (Some (or_empty (State.value (state w)))))
                              (emit (RenderHTML p (State.value (state w))) w)
            | None => emit (RenderHTML p (State.value (state w))) w
            end in
  match textarea w with
  | Some t => (Ok tt, with_orchestrator (TextAreaCommandOrchestrator (text t)) w1)
  | None => (TypeError, w1)
  end.
Proof.
  intros Hp. unfold batched, componentDidMount.
  unfold bind at 1. unfold get at 1. simpl fst.
  unfold bind at 1. rewrite handleChange_run, Hp.
  unfold_monad. unfold flush.
  destruct w as [pr st pv ta co ls dm bo lg]; simpl.
  destruct (Props.onChange pr); destruct ta; reflexivity.
Qed.

Lemma mount_run (element : Props.t) (ta : TextArea) (mp : MarkdownPreview)
    (d : node -> HTMLElement) (overflow : string) :
  let w0 := mounted getCommands element ta mp d overflow in
  let w1 := match Props.onChange (props w0) with
            | Some cb => emit (OnChange cb (Some (or_empty (State.value (state w0)))))
                              (emit (RenderHTML mp (State.value (state w0))) w0)
            | None => emit (RenderHTML mp (State.value (state w0))) w0
            end in
  mount getCommands element ta mp d overflow =
  if edit_or_live (tmpl (Props.preview (withDefaults getCommands element)))
  then (Ok tt, with_orchestrator (TextAreaCommandOrchestrator (text ta)) w1)
  else (TypeError, w1).
Proof.
  intros w0 w1. unfold mount. fold w0.
  rewrite (componentDidMount_run w0 mp eq_refl). cbv zeta. fold w1.
  assert (Hta : textarea w0 =
                if edit_or_live (tmpl (Props.preview (withDefaults getCommands element)))
                then Some ta else None).
  { unfold w0, mounted. cbv zeta. simpl textarea. rewrite panes_render.
    change (State.preview (constructor (withDefaults getCommands element)))
      with (Props.preview (withDefaults getCommands element)).
    destruct (edit_or_live _); reflexivity. }
  rewrite Hta. destruct (edit_or_live _); reflexivity.
Qed.

(** X8.  Mounting creates the orchestrator, on the native textarea of the
    [TextArea] child, exactly when the first render has the editor pane, that
    is when the initial preview mode contains [edit] or [live]: so with no
    [preview] prop.  Mounted with [preview='preview'] there is no [TextArea]:
    [componentDidMount] throws a [TypeError] and no orchestrator is created. *)
Theorem mount_orchestrator (element : Props.t) (ta : TextArea) (mp : MarkdownPreview)
    (d : node -> HTMLElement) (overflow : string) :
  let mode := tmpl (Props.preview (withDefaults getCommands element)) in
  let r := mount getCommands element ta mp d overflow in
  (edit_or_live mode = true ->
   fst r = Ok tt /\
   commandOrchestrator (snd r) = Some (TextAreaCommandOrchestrator (text ta))) /\
  (edit_or_live mode = false ->
   fst r = TypeError /\ commandOrchestrator (snd r) = None) /\
  (Props.preview element = None -> edit_or_live mode = true) /\
  (Props.preview element = Some "preview" -> edit_or_live mode = false).
Proof.
  intros mode r. unfold r. rewrite mount_run. cbv zeta. fold mode.
  split; [|split; [|split]].
  - intros ->. split; reflexivity.
  - intros ->. destruct (Props.onChange _); split; reflexivity.
  - intros Hn. unfold mode. simpl. rewrite Hn. reflexivity.
  - intros Hn. unfold mode. simpl. rewrite Hn. reflexivity.
Qed.

(** *** Scrolling *)

(** in every world [handleScroll] returns, having made at most one write *)
Lemma handleScroll_total (e : UIEvent) (w : World) :
  exists ws : list (node * num),
    batched (handleScroll e) w =
    (Ok tt, fold_left (fun w nv => write_scrollTop (fst nv) (snd nv) w) ws w) /\
    (ws = [] \/ exists n v, ws = [(n, v)]).
Proof.
  assert (Hnone : handleScroll e (w, []) = (Ok tt, (w, [])) ->
                  batched (handleScroll e) w = (Ok tt, w)).
  { intros H. unfold batched. rewrite H. unfold flush. simpl.
    rewrite with_state_same. reflexivity. }
  destruct (textarea w) as [ta|] eqn:Hta; [destruct (preview w) as [pv|] eqn:Hpv|].
  - destruct (warp ta) as [[t|]|] eqn:Ht; [destruct (mdp pv) as [[p|]|] eqn:Hp| |].
    + exists (scroll_writes e t p w). split.
      * apply (handleScroll_batched e w ta pv t p); assumption.
      * unfold scroll_writes.
        destruct (Nat.eqb (target e) t && leftScroll w); [right; eauto|].
        destruct (Nat.eqb (target e) p && negb (leftScroll w)); [right; eauto|].
        left; reflexivity.
    + exists []. split; [|left; reflexivity]. apply Hnone.
      unfold handleScroll; unfold_monad. rewrite Hta, Hpv, Hp, ?Ht. reflexivity.
    + exists []. split; [|left; reflexivity]. apply Hnone.
      unfold handleScroll; unfold_monad. rewrite Hta, Hpv, Hp, ?Ht. reflexivity.
    + exists []. split; [|left; reflexivity]. apply Hnone.
      unfold handleScroll; unfold_monad. rewrite Hta, Hpv.
      destruct (mdp pv) as [[p|]|]; rewrite ?Ht; reflexivity.
    + exists []. split; [|left; reflexivity]. apply Hnone.
      unfold handleScroll; unfold_monad. rewrite Hta, Hpv.
      destruct (mdp pv) as [[p|]|]; rewrite ?Ht; reflexivity.
  - exists []. split; [|left; reflexivity]. apply Hnone.
    apply handleScroll_unavailable. right; exact Hpv.
  - exists []. split; [|left; reflexivity]. apply Hnone.
    apply handleScroll_unavailable. left; exact Hta.
Qed.

(** a scroll event keeps the refs and the driving flag *)
Lemma handleScroll_refs (e : UIEvent) (w : World) :
  preview (snd (batched (handleScroll e) w)) = preview w /\
  textarea (snd (batched (handleScroll e) w)) = textarea w /\
  leftScroll (snd (batched (handleScroll e) w)) = leftScroll w.
Proof.
  destruct (handleScroll_total e w) as [ws [-> [-> | [n [v ->]]]]];
    repeat split; reflexivity.
Qed.

(** X9.  [handleScroll] never throws, and all it can change is the
    [scrollTop] of one element: the props, the state, the refs, the
    orchestrator, the driving flag, the overflow style of the body and the
    [scrollHeight] and [offsetHeight] of every element stay as they are, and
    the log gains at most one write. *)
Theorem handleScroll_frame (e : UIEvent) (w : World) :
  let r := batched (handleScroll e) w in
  fst r = Ok tt /\
  props (snd r) = props w /\ state (snd r) = state w /\
  preview (snd r) = preview w /\ textarea (snd r) = textarea w /\
  commandOrchestrator (snd r) = commandOrchestrator w /\
  leftScroll (snd r) = leftScroll w /\
  bodyOverflow (snd r) = bodyOverflow w /\
  (forall n, scrollHeight (dom (snd r) n) = scrollHeight (dom w n) /\
             offsetHeight (dom (snd r) n) = offsetHeight (dom w n)) /\
  (log (snd r) = log w \/ exists n v, log (snd r) = log w ++ [ScrollTopWrite n v]).
Proof.
  intros r. unfold r.
  destruct (handleScroll_total e w) as [ws [-> [-> | [n [v ->]]]]]; simpl.
  - repeat split; try reflexivity. left; reflexivity.
  - repeat split; try reflexivity.
    + destruct (Nat.eqb n0 n); reflexivity.
    + destruct (Nat.eqb n0 n); reflexivity.
    + right; eauto.
Qed.

(** X10.  As long as the driving flag does not change, the write
    [handleScroll] makes is not answered: with the editor driving, the scroll
    event the preview sends after it was moved is ignored, and with the
    preview driving, so is the event of the editor.  The flag is the only
    guard: when the pointer leaves the text area between the write and the
    event of the preview, that event moves the editor. *)
Theorem handleScroll_no_echo (w : World)
    (ta : TextArea) (pv : MarkdownPreview) (t p : node) :
  textarea w = Some ta -> preview w = Some pv ->
  warp ta = Some (Some t) -> mdp pv = Some (Some p) ->
  t <> p ->
  (leftScroll w = true ->
   let w1 := snd (batched (handleScroll (mkEvent t)) w) in
   batched (handleScroll (mkEvent p)) w1 = (Ok tt, w1)) /\
  (leftScroll w = false ->
   let w1 := snd (batched (handleScroll (mkEvent p)) w) in
   batched (handleScroll (mkEvent t)) w1 = (Ok tt, w1)) /\
  (leftScroll w = true ->
   let w1 := snd (batched (handleScroll (mkEvent t)) w) in
   let w2 := snd (batched onMouseLeave w1) in
   exists v, log (snd (batched (handleScroll (mkEvent p)) w2)) =
             log w2 ++ [ScrollTopWrite t v]).
Proof.
  intros Hta Hpv Ht Hp Hne.
  assert (Htp : Nat.eqb t p = false) by (apply Nat.eqb_neq; exact Hne).
  assert (Hpt : Nat.eqb p t = false) by (apply Nat.eqb_neq; congruence).
  split; [|split]; intros Hl w1; [| |intros w2].
  - destruct (handleScroll_refs (mkEvent t) w) as (Hpv1 & Hta1 & Hl1).
    fold w1 in Hpv1, Hta1, Hl1.
    rewrite (handleScroll_batched (mkEvent p) w1 ta pv t p); try congruence.
    unfold scroll_writes. simpl target. rewrite Hpt, Hl1, Hl, Nat.eqb_refl. reflexivity.
  - destruct (handleScroll_refs (mkEvent p) w) as (Hpv1 & Hta1 & Hl1).
    fold w1 in Hpv1, Hta1, Hl1.
    rewrite (handleScroll_batched (mkEvent t) w1 ta pv t p); try congruence.
    unfold scroll_writes. simpl target. rewrite Htp, Hl1, Hl, Nat.eqb_refl. reflexivity.
  - destruct (handleScroll_refs (mkEvent t) w) as (Hpv1 & Hta1 & Hl1).
    fold w1 in Hpv1, Hta1, Hl1.
    assert (Hta2 : textarea w2 = Some ta) by (rewrite <- Hta, <- Hta1; reflexivity).
    assert (Hpv2 : preview w2 = Some pv) by (rewrite <- Hpv, <- Hpv1; reflexivity).
    rewrite (handleScroll_batched (mkEvent p) w2 ta pv t p Hta2 Hpv2 Ht Hp).
    unfold scroll_writes. simpl. rewrite Hpt, Nat.eqb_refl. simpl. eauto.
Qed.

(** *** Any sequence of events *)

Lemma handleChange_batched (mdStr : option string) (w : World) :
  props (snd (batched (handleChange mdStr) w)) = props w /\
  state (snd (batched (handleChange mdStr) w)) = state w /\
  same_page w (snd (batched (handleChange mdStr) w)).
Proof.
  unfold batched. rewrite handleChange_run.
  destruct (preview w); [destruct (Props.onChange (props w))|];
    unfold flush; simpl; repeat split; reflexivity.
Qed.

Lemma dispatch_orchestrator (ev : Event) (w : World) :
  commandOrchestrator (snd (dispatch getCommands ev w)) = commandOrchestrator w.
Proof.
  destruct ev; simpl dispatch; try reflexivity.
  - apply (receiveProps_fields element w).
  - apply (handleCommand_fields command w).
  - destruct (handleScroll_total e w) as [ws [-> [-> | [n [v ->]]]]]; reflexivity.
  - apply (handleChange_batched mdStr w).
Qed.

Lemma run_orchestrator (evs : list Event) (w : World) :
  commandOrchestrator (run getCommands evs w) = commandOrchestrator w.
Proof.
  revert w; induction evs as [|ev evs IH]; intros w; [reflexivity|].
  change (run getCommands (ev :: evs) w)
    with (run getCommands evs (snd (dispatch getCommands ev w))).
  rewrite IH. apply dispatch_orchestrator.
Qed.

Lemma withDefaults_defined (element : Props.t) :
  Props.value (withDefaults getCommands element) <> None /\
  Props.fullscreen (withDefaults getCommands element) <> None /\
  Props.height (withDefaults getCommands element) <> None /\
  Props.preview (withDefaults getCommands element) <> None.
Proof.
  simpl. destruct (Props.value element), (Props.fullscreen element),
    (Props.height element), (Props.preview element); simpl;
    repeat split; discriminate.
Qed.

Lemma dispatch_invariant (ev : Event) (w : World) :
  state_invariant w -> state_invariant (snd (dispatch getCommands ev w)).
Proof.
  intros (Hv & Hd & Hf & Hh). destruct ev; simpl dispatch.
  - destruct (receiveProps_fields element w) as (Hp & Hs & _).
    destruct (withDefaults_defined element) as (Dv & Df & _).
    set (nextProps := withDefaults getCommands element) in *. clearbody nextProps.
    unfold state_invariant. rewrite Hp, Hs. unfold props_updates.
    destruct (str_seq (Props.value nextProps) (Props.value (props w))) eqn:Ev;
      [apply str_seq_true in Ev|];
      destruct (negb (str_seq (Props.preview nextProps) (Props.preview (props w))));
      destruct (negb (bool_seq (Props.fullscreen nextProps) (Props.fullscreen (props w))));
      simpl; repeat split; congruence.
  - destruct (handleCommand_fields command w) as (Hp & Hs & _).
    unfold state_invariant. rewrite Hp, Hs. unfold command_updates.
    destruct (String.eqb (ICommand.keyCommand command) "preview");
      destruct (String.eqb (ICommand.keyCommand command) "fullscreen");
      simpl; repeat split; solve [assumption | discriminate].
  - unfold state_invariant; simpl. repeat split; solve [assumption | discriminate].
  - destruct (handleScroll_total e w) as [ws [-> [-> | [n [v ->]]]]];
      repeat split; assumption.
  - repeat split; assumption.
  - repeat split; assumption.
  - destruct (handleChange_batched mdStr w) as (Hp & Hs & _).
    unfold state_invariant. rewrite Hp, Hs. repeat split; assumption.
  - repeat split; assumption.
  - repeat split; assumption.
Qed.

Lemma run_invariant (evs : list Event) (w : World) :
  state_invariant w -> state_invariant (run getCommands evs w).
Proof.
  revert w; induction evs as [|ev evs IH]; intros w Hw; [exact Hw|].
  change (run getCommands (ev :: evs) w)
    with (run getCommands evs (snd (dispatch getCommands ev w))).
  apply IH. apply dispatch_invariant. exact Hw.
Qed.

Lemma mount_invariant (element : Props.t) (ta : TextArea) (mp : MarkdownPreview)
    (d : node -> HTMLElement) (overflow : string) :
  state_invariant (snd (mount getCommands element ta mp d overflow)).
Proof.
  rewrite mount_run. cbv zeta.
  destruct (withDefaults_defined element) as (Dv & Df & Dh & _).
  destruct (edit_or_live _); destruct (Props.onChange _);
    repeat split; assumption.
Qed.

(** X11.  Whatever happens to a mounted component, the [value] of its state
    is the [value] of its props (user edits do not change it: only new props
    do), and the [value], the [fullscreen] flag and the [height] of the state
    are never undefined. *)
Theorem reachable_state (element : Props.t) (ta : TextArea) (mp : MarkdownPreview)
    (d : node -> HTMLElement) (overflow : string) (evs : list Event) :
  let w := run getCommands evs (snd (mount getCommands element ta mp d overflow)) in
  State.value (state w) = Props.value (props w) /\
  State.value (state w) <> None /\
  State.fullscreen (state w) <> None /\
  State.height (state w) <> None.
Proof.
  intros w. apply (run_invariant evs). apply mount_invariant.
Qed.

(** X12.  The orchestrator is created at mount and never again: after any
    sequence of events, also when React has unmounted or replaced the
    [TextArea], a command goes to the orchestrator the component had at the
    start. *)
Theorem orchestrator_fixed (w : World) (o : CommandOrchestrator)
    (evs : list Event) (command : ICommand.t) :
  commandOrchestrator w = Some o ->
  let w1 := run getCommands evs w in
  let r := dispatch getCommands (Command command) w1 in
  commandOrchestrator w1 = Some o /\
  fst r = Ok tt /\
  log (snd r) = log w1 ++ [ExecuteCommand o command].
Proof.
  intros Ho w1 r.
  assert (Ho1 : commandOrchestrator w1 = Some o)
    by (unfold w1; rewrite run_orchestrator; exact Ho).
  split; [exact Ho1|]. unfold r. simpl dispatch.
  rewrite (handleCommand_batched command w1 o Ho1). simpl.
  unfold command_page.
  destruct (String.eqb (ICommand.keyCommand command) "fullscreen"); split; reflexivity.
Qed.

(** *** The view *)

Lemma render_textArea_value (p : Props.t) (st : State.t) (a : View.TextArea) :
  In (View.TextAreaEl a) (View.content (render p st)) ->
  View.value a =
  override (State.value st) (textarea_key ITextAreaProps.value (Props.textareaProps p)).
Proof.
  unfold render. simpl View.content. intros H.
  apply in_app_or in H. destruct H as [H | H].
  - destruct (edit_or_live (tmpl (State.preview st))); [|destruct H].
    destruct H as [H | []]. inversion H. reflexivity.
  - destruct H as [H | H]; [discriminate|].
    destruct (_ && _); [|destruct H]. destruct H as [H | []]. discriminate.
Qed.

(** X14.  Whatever happens to a mounted component, the text area it renders
    is given as its value the [value] key of [textareaProps] when
    [textareaProps] has one, since it is spread after the attribute, and the
    [value] prop of the component otherwise. *)
Theorem textArea_shows_props_value (element : Props.t) (ta : TextArea)
    (mp : MarkdownPreview) (d : node -> HTMLElement) (overflow : string)
    (evs : list Event) (a : View.TextArea) :
  let w := run getCommands evs (snd (mount getCommands element ta mp d overflow)) in
  In (View.TextAreaEl a) (View.content (render (props w) (state w))) ->
  View.value a =
  override (Props.value (props w))
           (textarea_key ITextAreaProps.value (Props.textareaProps (props w))) /\
  (Props.textareaProps (props w) = None -> View.value a = Props.value (props w)).
Proof.
  intros w Hin. rewrite (render_textArea_value _ _ a Hin).
  assert (Hv : State.value (state w) = Props.value (props w))
    by (apply (run_invariant evs); apply mount_invariant).
  rewrite Hv. split; [reflexivity|]. intros ->. reflexivity.
Qed.

Lemma prefix_spec (pat s : string) :
  String.prefix pat s = true <-> exists b, s = (pat ++ b)%string.
Proof.
  revert s; induction pat as [|c pat IH]; intros s.
  - split; [intros _; exists s; reflexivity | destruct s; reflexivity].
  - destruct s as [|c' s]; simpl; [split; [discriminate | intros [b H]; discriminate]|].
    destruct (Ascii.ascii_dec c c') as [-> | Hne].
    + rewrite IH. split; intros [b H]; exists b; [rewrite H; reflexivity|].
      inversion H. reflexivity.
    + split; [discriminate|]. intros [b H]. inversion H. congruence.
Qed.

Lemma includes_unfold (pat s : string) :
  includes pat s =
  if String.prefix pat s then true
  else match s with
       | EmptyString => false
       | String _ s' => includes pat s'
       end.
Proof. destruct s; reflexivity. Qed.

Lemma includes_spec (pat s : string) :
  includes pat s = true <-> exists a b, s = (a ++ pat ++ b)%string.
Proof.
  split.
  - induction s as [|c s IH]; rewrite includes_unfold;
      destruct (String.prefix pat _) eqn:E.
    + intros _. apply prefix_spec in E. destruct E as [b E]. exists "", b. exact E.
    + intros H; discriminate H.
    + intros _. apply prefix_spec in E. destruct E as [b E]. exists "", b. exact E.
    + intros H. destruct (IH H) as (a & b & ->). exists (String c a), b. reflexivity.
  - intros (a & b & ->). induction a as [|c a IH]; rewrite includes_unfold.
    + assert (E : String.prefix pat ("" ++ pat ++ b) = true)
        by (apply prefix_spec; exists b; reflexivity).
      rewrite E. reflexivity.
    + destruct (String.prefix pat _); [reflexivity|]. exact IH.
Qed.

(** X15.  The editor pane is rendered exactly when the preview mode of the
    state, read as a string, contains [edit] or [live] somewhere: the test is
    not an equality.  An undefined mode reads as ['undefined'] and renders no
    editor. *)
Theorem textArea_rendered_iff (p : Props.t) (st : State.t) :
  (In EditorPane (panes (render p st)) <->
   exists a b, tmpl (State.preview st) = (a ++ "edit" ++ b)%string \/
               tmpl (State.preview st) = (a ++ "live" ++ b)%string) /\
  (State.preview st = None -> ~ In EditorPane (panes (render p st))).
Proof.
  rewrite panes_render. split.
  - unfold edit_or_live. split.
    + intros H. destruct (includes "edit" _) eqn:E1.
      * apply includes_spec in E1. destruct E1 as (a & b & E). eauto.
      * destruct (includes "live" _) eqn:E2.
        -- apply includes_spec in E2. destruct E2 as (a & b & E). eauto.
        -- simpl in H. destruct H as [H | []]. discriminate.
    + intros (a & b & [E | E]).
      * assert (H : includes "edit" (tmpl (State.preview st)) = true)
          by (apply includes_spec; eauto).
        rewrite H. left; reflexivity.
      * assert (H : includes "live" (tmpl (State.preview st)) = true)
          by (apply includes_spec; eauto).
        rewrite H, orb_true_r. left; reflexivity.
  - intros ->. simpl. intros [H | []]. discriminate.
Qed.

(** X16.  In fullscreen the content takes [calc(100% - 29px)] and the root
    100% of the height, whatever the height of the state, unless the props
    have a [style]: it is spread after the style [render] computes and
    replaces it.  The drag bar is rendered exactly when [visiableDragbar] is
    truthy, the preview mode is not ['preview'] and the component is not in
    fullscreen. *)
Theorem render_fullscreen_dragBar (p : Props.t) (st : State.t) :
  (truthy (State.fullscreen st) = true ->
   View.style (render p st) =
   match Props.style p with
   | Some s => View.PropStyle s
   | None => View.OwnHeight (Css (Some (HStr "100%")))
   end /\
   View.content_height (render p st) = Css (Some (HStr "calc(100% - 29px)"))) /\
  ((exists a, In (View.DragBarEl a) (View.content (render p st))) <->
   truthy (Props.visiableDragbar p) = true /\
   State.preview st <> Some "preview" /\
   truthy (State.fullscreen st) = false).
Proof.
  split.
  - intros Hf. unfold render. simpl. rewrite Hf. split; reflexivity.
  - unfold render. simpl View.content.
    assert (Hmode : str_seq (State.preview st) (Some "preview") = false <->
                    State.preview st <> Some "preview").
    { split; [intros H E; rewrite E, str_seq_refl in H; discriminate|].
      apply str_seq_false. }
    split.
    + intros [a H]. apply in_app_or in H. destruct H as [H | [H | H]].
      * destruct (edit_or_live _); [destruct H as [H | []]; discriminate | destruct H].
      * discriminate.
      * destruct (truthy (Props.visiableDragbar p)); [|destruct H].
        destruct (str_seq (State.preview st) (Some "preview")); [destruct H|].
        destruct (truthy (State.fullscreen st)); [destruct H|].
        repeat split. apply Hmode. reflexivity.
    + intros (Hv & Hm & Hf). apply Hmode in Hm. rewrite Hv, Hm, Hf. simpl.
      eexists. apply in_or_app. right. right. left. reflexivity.
Qed.

(** X17.  Outside fullscreen, after the drag bar has reported a height: the
    content has that height minus 29 (the band of the toolbar), the drag bar
    is given that height back, and the root has that height unless the props
    have a [style], which replaces the style of the root. *)
Theorem drag_layout (w : World) (newHeight : num) :
  truthy (State.fullscreen (state w)) = false ->
  let w' := snd (dispatch getCommands (Drag newHeight) w) in
  let view := render (props w') (state w') in
  View.style view =
  match Props.style (props w) with
  | Some s => View.PropStyle s
  | None => View.OwnHeight (Css (Some (HNum newHeight)))
  end /\
  View.content_height view = Css (Some (HNum (nsub newHeight (nlit 29)))) /\
  (forall a, In (View.DragBarEl a) (View.content view) ->
             View.height a = Some (HNum newHeight)).
Proof.
  intros Hf w' view. unfold view, w'. simpl dispatch. simpl snd.
  unfold render. simpl. rewrite Hf. split; [reflexivity|]. split; [reflexivity|].
  intros a H. apply in_app_or in H. destruct H as [H | [H | H]].
  - destruct (edit_or_live _); [destruct H as [H | []]; discriminate | destruct H].
  - discriminate.
  - destruct (_ && _); [|destruct H]. destruct H as [H | []].
    inversion H. reflexivity.
Qed.

(** X19.  The class of the root carries the hooks of the style sheet: the
    name [<prefixCls>-show-<mode>] whenever the preview mode is a non-empty
    string, and the name [<prefixCls>-fullscreen] whenever the component is in
    fullscreen. *)
Theorem render_className (p : Props.t) (st : State.t) :
  (truthy_str (State.preview st) = true ->
   exists a b, View.className (render p st) =
               (a ++ (tmpl (Props.prefixCls p) ++ "-show-" ++ tmpl (State.preview st))
                  ++ b)%string) /\
  (truthy (State.fullscreen st) = true ->
   exists a b, View.className (render p st) =
               (a ++ (tmpl (Props.prefixCls p) ++ "-fullscreen") ++ b)%string).
Proof.
  unfold render. simpl View.className. unfold classnames.
  split; intros H; apply concat_contains;
    match goal with
    | |- In ?x (map fst (filter snd ?l)) =>
      change x with (fst (x, true)); apply in_map; apply filter_In;
        split; [|reflexivity]
    end; rewrite <- H; simpl; tauto.
Qed.

(** X20.  The pointer chooses the pane that drives.  Once it is over the
    text area, a scroll event of the editor moves the preview and a scroll
    event of the preview moves nothing; once it has left, a scroll event of
    the preview moves the editor and a scroll event of the editor moves
    nothing. *)
Theorem hover_selects_driver (w : World)
    (ta : TextArea) (pv : MarkdownPreview) (t p : node) :
  textarea w = Some ta -> preview w = Some pv ->
  warp ta = Some (Some t) -> mdp pv = Some (Some p) ->
  t <> p ->
  (let w1 := snd (batched onMouseOver w) in
   (exists v, log (snd (batched (handleScroll (mkEvent t)) w1)) =
              log w1 ++ [ScrollTopWrite p v]) /\
   batched (handleScroll (mkEvent p)) w1 = (Ok tt, w1)) /\
  (let w1 := snd (batched onMouseLeave w) in
   (exists v, log (snd (batched (handleScroll (mkEvent p)) w1)) =
              log w1 ++ [ScrollTopWrite t v]) /\
   batched (handleScroll (mkEvent t)) w1 = (Ok tt, w1)).
Proof.
  intros Hta Hpv Ht Hp Hne.
  assert (Htp : Nat.eqb t p = false) by (apply Nat.eqb_neq; exact Hne).
  assert (Hpt : Nat.eqb p t = false) by (apply Nat.eqb_neq; congruence).
  split; intros w1; split.
  - rewrite (handleScroll_batched (mkEvent t) w1 ta pv t p Hta Hpv Ht Hp).
    unfold scroll_writes. simpl. rewrite Nat.eqb_refl. simpl. eauto.
  - rewrite (handleScroll_batched (mkEvent p) w1 ta pv t p Hta Hpv Ht Hp).
    unfold scroll_writes. simpl. rewrite Hpt, Nat.eqb_refl. reflexivity.
  - rewrite (handleScroll_batched (mkEvent p) w1 ta pv t p Hta Hpv Ht Hp).
    unfold scroll_writes. simpl. rewrite Hpt, Nat.eqb_refl. simpl. eauto.
  - rewrite (handleScroll_batched (mkEvent t) w1 ta pv t p Hta Hpv Ht Hp).
    unfold scroll_writes. simpl. rewrite Htp, Nat.eqb_refl. reflexivity.
Qed.

End Behaviour.

(** *** Proportional offsets under rounding *)

Section Proportional.
Local Open Scope R_scope.
Variable rnd : R -> R.
Variable u : R.
Hypothesis Hrnd : relative_error rnd u.
Hypothesis Hu : 0 <= u <= 1 / 4.

Lemma offset_div (x te pr : R) :
  te <> 0 -> pr <> 0 ->
  Rabs (rnd (x / rnd (te / pr)) - x * pr / te) <= 3 * u * Rabs (x * pr / te).
Proof.
  intros Hte Hpr.
  destruct (rnd_factor rnd u Hrnd Hu (te / pr)) as [d1 [Hd1 E1]].
  destruct (rnd_factor rnd u Hrnd Hu (x / rnd (te / pr))) as [d2 [Hd2 E2]].
  rewrite E2, E1.
  apply (Rabs_bound u Hu) in Hd1. apply (Rabs_bound u Hu) in Hd2.
  assert (H1 : 0 < 1 + d1) by lra.
  replace (x / (te / pr * (1 + d1)) * (1 + d2) - x * pr / te)
    with (((d2 - d1) / (1 + d1)) * (x * pr / te)) by (field; repeat split; lra).
  rewrite Rabs_mult.
  apply Rmult_le_compat_r; [apply Rabs_pos|].
  apply Rabs_le.
  split; apply (Rmult_le_reg_r (1 + d1)); try exact H1;
    unfold Rdiv; rewrite Rmult_assoc, Rinv_l by lra; nra.
Qed.

Lemma offset_mul (y te pr : R) :
  pr <> 0 ->
  Rabs (rnd (y * rnd (te / pr)) - y * te / pr) <= 3 * u * Rabs (y * te / pr).
Proof.
  intros Hpr.
  destruct (rnd_factor rnd u Hrnd Hu (te / pr)) as [d1 [Hd1 E1]].
  destruct (rnd_factor rnd u Hrnd Hu (y * rnd (te / pr))) as [d2 [Hd2 E2]].
  rewrite E2, E1.
  apply (Rabs_bound u Hu) in Hd1. apply (Rabs_bound u Hu) in Hd2.
  replace (y * (te / pr * (1 + d1)) * (1 + d2) - y * te / pr)
    with ((d1 + d2 + d1 * d2) * (y * te / pr)) by (field; lra).
  rewrite Rabs_mult.
  apply Rmult_le_compat_r; [apply Rabs_pos|].
  apply Rabs_le. split; nra.
Qed.

(** X18.  Under rounding with relative error at most [u], and with both
    scrollable ranges not zero, the pane that follows is put at the same
    fraction of its range as the pane that drives, for every offset: the
    offset written is within [3 u], relatively, of the driving offset times
    the ratio of the ranges. *)
Theorem handleScroll_same_fraction (e : UIEvent) (w : @World (rounded rnd))
    (ta : TextArea) (pv : MarkdownPreview) (t p : node) :
  textarea w = Some ta -> preview w = Some pv ->
  warp ta = Some (Some t) -> mdp pv = Some (Some p) ->
  let editor_range : R := nsub (scrollHeight (dom w t)) (offsetHeight (dom w t)) in
  let preview_range : R := nsub (scrollHeight (dom w p)) (offsetHeight (dom w p)) in
  editor_range <> 0 -> preview_range <> 0 ->
  let w' := snd (batched (handleScroll e) w) in
  (target e = t -> leftScroll w = true ->
   let x : R := scrollTop (dom w t) in
   Rabs (scrollTop (dom w' p) - x * preview_range / editor_range)
   <= 3 * u * Rabs (x * preview_range / editor_range)) /\
  (target e = p -> leftScroll w = false ->
   let y : R := scrollTop (dom w p) in
   Rabs (scrollTop (dom w' t) - y * editor_range / preview_range)
   <= 3 * u * Rabs (y * editor_range / preview_range)).
Proof.
  intros Hta Hpv Ht Hp editor_range preview_range Hte Hpr w'.
  destruct (handleScroll_formulas e w ta pv t p Hta Hpv Ht Hp) as [F1 F2].
  fold w' in F1, F2. split.
  - intros He Hl x. rewrite (F1 He Hl).
    exact (offset_div x editor_range preview_range Hte Hpr).
  - intros He Hl y. rewrite (F2 He Hl).
    exact (offset_mul y editor_range preview_range Hpr).
Qed.

End Proportional.

(** *** More properties on a concrete page *)

Lemma receiveProps_unchanged_witness :
  State.preview (state Sample.commanded_world) = Some "preview" /\
  Props.preview (props Sample.commanded_world) = Some "live" /\
  receiveProps [] Sample.element Sample.commanded_world =
  (Ok tt, with_props (withDefaults [] Sample.element) Sample.commanded_world).
Proof.
  split; [reflexivity|]. split; [reflexivity|].
  exact (@receiveProps_unchanged binary64 [] Sample.element Sample.commanded_world
           eq_refl eq_refl eq_refl).
Defined.

Lemma receiveProps_fullscreen_witness :
  Props.fullscreen (withDefaults [] (Sample.fullscreen_element (N := binary64))) <>
  Props.fullscreen (props Sample.world) /\
  State.fullscreen (state (snd (receiveProps [] Sample.fullscreen_element Sample.world)))
  = Some true /\
  bodyOverflow (snd (receiveProps [] Sample.fullscreen_element Sample.world)) = "".
Proof.
  assert (Hne : Props.fullscreen (withDefaults [] (Sample.fullscreen_element (N := binary64)))
                <> Props.fullscreen (props Sample.world)) by (vm_compute; discriminate).
  split; [exact Hne|].
  exact (proj2 (@receiveProps_fullscreen binary64 [] Sample.fullscreen_element
                  Sample.world) Hne).
Defined.

Lemma receiveProps_same_value_witness :
  Props.value (withDefaults [] (Sample.edit_element (N := binary64))) =
  Props.value (props Sample.world) /\
  log (snd (receiveProps [] Sample.edit_element Sample.world)) = log Sample.world.
Proof.
  split; [reflexivity|].
  exact (proj2 (@receiveProps_same_value binary64 [] Sample.edit_element Sample.world
                  eq_refl)).
Defined.

Lemma handleCommand_other_witness :
  ICommand.keyCommand Sample.bold_command <> "preview" /\
  ICommand.keyCommand Sample.bold_command <> "fullscreen" /\
  commandOrchestrator Sample.world = Some Sample.orchestrator /\
  batched (handleCommand Sample.bold_command) Sample.world =
  (Ok tt, emit (ExecuteCommand Sample.orchestrator Sample.bold_command) Sample.world).
Proof.
  assert (H1 : ICommand.keyCommand Sample.bold_command <> "preview") by discriminate.
  assert (H2 : ICommand.keyCommand Sample.bold_command <> "fullscreen") by discriminate.
  split; [exact H1|]. split; [exact H2|]. split; [reflexivity|].
  exact (@handleCommand_other binary64 Sample.bold_command Sample.world
           Sample.orchestrator H1 H2 eq_refl).
Defined.

Lemma handleCommand_no_orchestrator_witness :
  commandOrchestrator Sample.preview_mounted_world = None /\
  fst (batched (handleCommand Sample.fullscreen_command) Sample.preview_mounted_world)
  = TypeError /\
  bodyOverflow
    (snd (batched (handleCommand Sample.fullscreen_command) Sample.preview_mounted_world))
  = "hidden".
Proof.
  split; [reflexivity|].
  destruct (@handleCommand_no_orchestrator binary64 Sample.fullscreen_command
              Sample.preview_mounted_world eq_refl) as (H1 & _ & H3).
  split; [exact H1 | exact (H3 eq_refl)].
Defined.

Lemma fullscreen_command_lock_witness :
  State.fullscreen (state Sample.world) = Some false /\
  bodyOverflow (snd (batched (handleCommand Sample.fullscreen_command) Sample.world))
  = "hidden".
Proof.
  split; [reflexivity|].
  exact (proj1 (proj2 (@fullscreen_command_lock binary64 Sample.fullscreen_command
                         Sample.world Sample.orchestrator false
                         eq_refl eq_refl eq_refl))).
Defined.

Lemma mount_orchestrator_witness :
  commandOrchestrator Sample.world = Some (TextAreaCommandOrchestrator (Some 3)) /\
  fst (mount [] (Sample.preview_element (N := binary64)) Sample.textArea
             Sample.markdownPreview Sample.short_page "") = TypeError.
Proof.
  destruct (@mount_orchestrator binary64 [] Sample.element Sample.textArea
              Sample.markdownPreview Sample.short_page "") as (H1 & _).
  destruct (@mount_orchestrator binary64 [] Sample.preview_element Sample.textArea
              Sample.markdownPreview Sample.short_page "") as (_ & H2 & _).
  split; [exact (proj2 (H1 eq_refl)) | exact (proj1 (H2 eq_refl))].
Defined.

Lemma handleScroll_no_echo_witness :
  let w := Sample.hovered_on (N := binary64) Sample.element Sample.long_page in
  let w1 := snd (batched (handleScroll (mkEvent 1)) w) in
  leftScroll w = true /\
  batched (handleScroll (mkEvent 2)) w1 = (Ok tt, w1).
Proof.
  intros w w1. split; [reflexivity|].
  assert (Hne : 1 <> 2) by discriminate.
  exact (proj1 (@handleScroll_no_echo binary64 w Sample.textArea Sample.markdownPreview
                  1 2 eq_refl eq_refl eq_refl eq_refl Hne) eq_refl).
Defined.

Lemma orchestrator_fixed_witness :
  let evs := [Refs None (Some Sample.markdownPreview);
              NewProps Sample.edit_element;
              Drag (N := binary64) (float_of_Z 300)] in
  commandOrchestrator Sample.world = Some Sample.orchestrator /\
  commandOrchestrator (run [] evs Sample.world) = Some Sample.orchestrator.
Proof.
  intros evs. split; [reflexivity|].
  exact (proj1 (@orchestrator_fixed binary64 [] Sample.world Sample.orchestrator evs
                  Sample.bold_command eq_refl)).
Defined.

Lemma textArea_shows_props_value_witness :
  In (View.TextAreaEl Sample.textArea_view)
     (View.content (render (props Sample.world) (state Sample.world))) /\
  View.value Sample.textArea_view = Props.value (props Sample.world).
Proof.
  assert (Hin : In (View.TextAreaEl Sample.textArea_view)
                   (View.content (render (props Sample.world) (state Sample.world))))
    by (left; reflexivity).
  split; [exact Hin|].
  exact (proj2 (@textArea_shows_props_value binary64 [] Sample.element Sample.textArea
                  Sample.markdownPreview Sample.short_page "" [] Sample.textArea_view Hin)
           eq_refl).
Defined.

Lemma textArea_rendered_iff_witness :
  State.preview (state Sample.world) = Some "live" /\
  In EditorPane (panes (render (props Sample.world) (state Sample.world))).
Proof.
  split; [reflexivity|].
  apply (proj1 (@textArea_rendered_iff binary64 (props Sample.world) (state Sample.world))).
  exists "", "". right. reflexivity.
Defined.

Lemma render_fullscreen_dragBar_witness :
  truthy (State.fullscreen (state Sample.fullscreen_world)) = true /\
  View.style
    (render (props Sample.fullscreen_world) (state Sample.fullscreen_world)) =
  View.OwnHeight (Css (Some (HStr "100%"))).
Proof.
  split; [reflexivity|].
  exact (proj1 (proj1 (@render_fullscreen_dragBar binary64 (props Sample.fullscreen_world)
                         (state Sample.fullscreen_world)) eq_refl)).
Defined.

Lemma drag_layout_witness :
  let w' := snd (dispatch [] (Drag (N := binary64) (float_of_Z 300)) Sample.world) in
  truthy (State.fullscreen (state Sample.world)) = false /\
  View.content_height (render (props w') (state w')) =
  @Css binary64 (Some (@HNum binary64 (PrimFloat.sub (float_of_Z 300) (float_of_Z 29)))).
Proof.
  intros w'. split; [reflexivity|].
  exact (proj1 (proj2 (@drag_layout binary64 [] Sample.world (float_of_Z 300) eq_refl))).
Defined.

Lemma handleScroll_same_fraction_witness :
  let w := Sample.hovered_on (N := Sample.exact) Sample.element Sample.long_page in
  (400 - 100 <> 0)%R /\ (700 - 100 <> 0)%R /\
  (Rabs (scrollTop (dom (snd (batched (handleScroll (mkEvent 1%nat)) w)) 2%nat)
         - 300 * (700 - 100) / (400 - 100))
   <= 3 * 0 * Rabs (300 * (700 - 100) / (400 - 100)))%R.
Proof.
  intros w.
  assert (Hte : (400 - 100 <> 0)%R) by lra.
  assert (Hpr : (700 - 100 <> 0)%R) by lra.
  assert (Hu : (0 <= 0 <= 1 / 4)%R) by lra.
  split; [exact Hte|]. split; [exact Hpr|].
  exact (proj1 (handleScroll_same_fraction (fun x => x) 0%R exact_relative_error Hu
                  (mkEvent 1%nat) w Sample.textArea Sample.markdownPreview 1%nat 2%nat
                  eq_refl eq_refl eq_refl eq_refl Hte Hpr) eq_refl eq_refl).
Defined.

Lemma render_className_witness :
  truthy_str (State.preview (state Sample.world)) = true /\
  exists a b,
    View.className (render (props Sample.world) (state Sample.world)) =
    (a ++ "w-md-editor-show-live" ++ b)%string.
Proof.
  split; [reflexivity|].
  exact (proj1 (@render_className binary64 (props Sample.world) (state Sample.world))
           eq_refl).
Defined.

Lemma hover_selects_driver_witness :
  let w1 := snd (batched onMouseOver
                   (Sample.mounted_on (N := binary64) Sample.element Sample.long_page)) in
  batched (handleScroll (mkEvent 2)) w1 = (Ok tt, w1).
Proof.
  intros w1. assert (Hne : 1 <> 2) by discriminate.
  exact (proj2 (proj1 (@hover_selects_driver binary64
                         (Sample.mounted_on Sample.element Sample.long_page)
                         Sample.textArea Sample.markdownPreview 1 2
                         eq_refl eq_refl eq_refl eq_refl Hne))).
Defined.
